(** * Spend Growth Management (SGM) engine: a shallow embedding

    This development embeds the decision engine of [sgm_simulator.py]
    (the classes [SGMRule], [ManualAllowance], [WalletConfig],
    [ReservedVolumesConfig], [DayResult] and the static methods of
    [SGMEngine]) and proves properties of it.

    Number model.  Python [float] values are idealised as exact rationals
    ([Q]); rounding, infinities and NaN are outside the model.  Equalities
    between amounts are therefore stated with [==] ([Qeq]).  Python [int]
    values (day indices, weekdays, offsets) are unbounded and are modelled
    by [Z]; [len] of a list is a [nat].  The only operation of the engine
    that leaves the rationals is the float power [x ** y]; it is a
    parameter ([fpow]) of the section that holds the engine.  ([x ** y] has
    no real value for a negative base: a rule with a growth percentage
    below -100, which only a bypassed validation lets through, is outside
    the model.)

    Module [B64] embeds the same engine on binary64 floats.  It is used to
    evaluate the code on concrete inputs where rounding decides, as in the
    cumulative reserved usage, which can exceed the monthly volume by one
    unit in the last place. *)

From Stdlib Require Import String ZArith QArith Qminmax List Bool Lia Lqa.
From Stdlib Require PrimFloat.
Import ListNotations.

Local Open Scope Q_scope.

(** ** Python built-ins used by the engine *)

Module Py.

(** [a < b] on floats. *)
Definition Qlt_bool (a b : Q) : bool := negb (Qle_bool b a).

(** [max(a, b)]: the first argument is kept unless the second is strictly
    greater. *)
Definition max2 (a b : Q) : Q := Qmax a b.

(** [max(a, b, c)]: a left-to-right scan keeping the first maximum. *)
Definition max3 (a b c : Q) : Q := Qmax (Qmax a b) c.

(** [min(a, b)]: the first argument is kept unless the second is strictly
    smaller. *)
Definition min2 (a b : Q) : Q := Qmin a b.

(** [sum(l)]: left-to-right accumulation from [0]. *)
Definition sum (l : list Q) : Q := fold_left Qplus l 0.

(** [l[-n:]] for a positive [n]: the last [n] items, or all of [l] when it
    has fewer. *)
Definition last_n (n : nat) (l : list Q) : list Q :=
  skipn (List.length l - n) l.

(** Truthiness of an [Optional[float]]: [None] and [0.0] are false. *)
Definition truthy (o : option Q) : bool :=
  match o with
  | None => false
  | Some k => negb (Qeq_bool k 0)
  end.

End Py.

(** ** Core domain models *)

(** The [ValueError]s raised by [SGMRule.__post_init__], one per [raise]. *)
Inductive ValueError : Type :=
| GrowthPercentageOutOfBounds (got : Q)
| MinGrowthDollarsTooLow (got : Q)
| WeeklyRecalcDayOutOfRange (got : Z).

Inductive result (A : Type) : Type :=
| Ok (a : A)
| Raise (e : ValueError).
Arguments Ok {A} a.
Arguments Raise {A} e.

Record SGMRule : Type := mkSGMRule {
  name : string;
  growth_percentage : Q;
  min_growth_dollars : Q;
  enabled : bool;
  weekly_recalc_enabled : bool;
  weekly_recalc_day : Z;
  validate_bounds : bool
}.

(** [SGMRule.__post_init__]: [None] when the body runs to its end, the
    first exception raised otherwise. *)
Definition post_init (self : SGMRule) : option ValueError :=
  let bounds :=
    if validate_bounds self then
      if negb (Qle_bool 5 (growth_percentage self)
               && Qle_bool (growth_percentage self) 50) then
        Some (GrowthPercentageOutOfBounds (growth_percentage self))
      else if Py.Qlt_bool (min_growth_dollars self) 20 then
        Some (MinGrowthDollarsTooLow (min_growth_dollars self))
      else None
    else None in
  match bounds with
  | Some e => Some e
  | None =>
      if negb ((0 <=? weekly_recalc_day self)%Z
               && (weekly_recalc_day self <=? 6)%Z) then
        Some (WeeklyRecalcDayOutOfRange (weekly_recalc_day self))
      else None
  end.

(** Construction of an [SGMRule]: the dataclass fills the fields and then
    runs [__post_init__]. *)
Definition new_SGMRule (name : string) (growth_percentage min_growth_dollars : Q)
    (enabled weekly_recalc_enabled : bool) (weekly_recalc_day : Z)
    (validate_bounds : bool) : result SGMRule :=
  let self := mkSGMRule name growth_percentage min_growth_dollars enabled
                        weekly_recalc_enabled weekly_recalc_day validate_bounds in
  match post_init self with
  | Some e => Raise e
  | None => Ok self
  end.

Record ManualAllowance : Type := mkManualAllowance {
  amount : Q;
  created_day : Z;
  expiration_days : option Z;
  reason : string
}.

(** [ManualAllowance.is_expired] *)
Definition is_expired (self : ManualAllowance) (current_day : Z) : bool :=
  match expiration_days self with
  | None => false
  | Some e => (created_day self + e <=? current_day)%Z
  end.

(** [ManualAllowance.remaining_amount] *)
Definition remaining_amount (self : ManualAllowance) (current_day : Z) : Q :=
  if is_expired self current_day then 0 else amount self.

Record WalletConfig : Type := mkWalletConfig {
  model : string;
  custom_multiplier : option Q
}.

(** [WalletConfig()] with its defaults. *)
Definition default_WalletConfig : WalletConfig :=
  mkWalletConfig "daily_limit_2x" None.

(** [WalletConfig.calculate_max_capacity] *)
Definition calculate_max_capacity (self : WalletConfig) (daily_limit : Q) : Q :=
  if String.eqb (model self) "daily_limit_2x" then daily_limit * 2
  else if String.eqb (model self) "three_day_budget" then daily_limit * 3
  else if String.eqb (model self) "custom" && Py.truthy (custom_multiplier self) then
    match custom_multiplier self with
    | Some k => daily_limit * k
    | None => daily_limit * 2
    end
  else daily_limit * 2.

Record ReservedVolumesConfig : Type := mkReservedVolumesConfig {
  monthly_volume : Q;
  billing_day_start : Z;
  days_in_cycle : Z
}.

(** [ReservedVolumesConfig.advance_billing_day] *)
Definition advance_billing_day (self : ReservedVolumesConfig) (current_day : Z) : Z :=
  let next_day := (current_day + 1)%Z in
  if (days_in_cycle self <? next_day)%Z then 1%Z else next_day.

(** The three values of [DayResult.intervention_type]. *)
Inductive Intervention : Type := none | throttle | shutdown.

(** The string stored by the source for each value. *)
Definition intervention_str (i : Intervention) : string :=
  match i with
  | none => "none"
  | throttle => "throttle"
  | shutdown => "shutdown"
  end.

Record DayResult : Type := mkDayResult {
  day_index : Z;
  billing_day : Z;
  requested_spend : Q;
  accepted_spend : Q;
  rejected_spend : Q;
  reserved_spend : Q;
  sgm_spend : Q;
  daily_spend_limit : Q;
  wallet_balance_start : Q;
  wallet_balance_end : Q;
  wallet_max_capacity : Q;
  intervention_type : Intervention;
  reserved_remaining : Q;
  cumulative_reserved_used : Q;
  manual_allowances_used : Q;
  expired_allowances : Q
}.

(** ** The stateless simulation engine ([SGMEngine]) *)

Section Engine.

(** The float power operator [x ** y] of Python. *)
Variable fpow : Q -> Q -> Q.

(** The weekly-recalculation test made at the top of
    [calculate_daily_spend_limit] (the source's [should_recalc]). *)
Definition should_recalc (accepted_history : list Q) (rule : SGMRule)
    (current_day_index last_recalc_day : Z) : bool :=
  if weekly_recalc_enabled rule && (7 <=? List.length accepted_history)%nat then
    let days_since_recalc := (current_day_index - last_recalc_day)%Z in
    let current_weekday := (current_day_index mod 7)%Z in
    (7 <=? days_since_recalc)%Z && (current_weekday =? weekly_recalc_day rule)%Z
  else false.

(** [SGMEngine.calculate_daily_spend_limit]: returns
    [(daily_limit, last_recalc_day, baseline_spend)]. *)
Definition calculate_daily_spend_limit (accepted_history : list Q) (rule : SGMRule)
    (current_day_index last_recalc_day : Z) (baseline_spend : option Q)
    : Q * Z * option Q :=
  let '(last_recalc_day, baseline_spend) :=
    if should_recalc accepted_history rule current_day_index last_recalc_day then
      (current_day_index, Some (Py.sum (Py.last_n 7 accepted_history) / 7))
    else (last_recalc_day, baseline_spend) in
  if (List.length accepted_history <? 7)%nat then
    if (List.length accepted_history =? 0)%nat then
      let daily_limit := min_growth_dollars rule / 7 in
      (daily_limit, last_recalc_day, baseline_spend)
    else
      let days_elapsed := List.length accepted_history in
      let total_so_far := Py.sum accepted_history in
      let days_remaining := (7 - Z.of_nat days_elapsed)%Z in
      let needed_per_day :=
        (min_growth_dollars rule - total_so_far) / inject_Z days_remaining in
      let current_avg := total_so_far / inject_Z (Z.of_nat days_elapsed) in
      let growth_based := current_avg * (1 + growth_percentage rule / 100) in
      let daily_limit :=
        Py.max3 needed_per_day growth_based (min_growth_dollars rule / 7) in
      (daily_limit, last_recalc_day, baseline_spend)
  else
    let daily_limit :=
      match weekly_recalc_enabled rule, baseline_spend with
      | true, Some baseline =>
          let weekly_baseline := baseline * 7 in
          let weekly_growth_limit :=
            Py.max2 (min_growth_dollars rule)
                    (weekly_baseline * (1 + growth_percentage rule / 100)) in
          weekly_growth_limit / 7
      | _, _ =>
          let recent_7 := Py.sum (Py.last_n 7 accepted_history) in
          let recent_6 := Py.sum (Py.last_n 6 accepted_history) in
          let growth_factor := fpow (1 + growth_percentage rule / 100) (1 / 7) in
          let exponential_limit := recent_7 * growth_factor - recent_6 in
          let linear_limit := recent_7 + min_growth_dollars rule / 7 - recent_6 in
          Py.max3 exponential_limit linear_limit 0
      end in
    (daily_limit, last_recalc_day, baseline_spend).

(** [SGMEngine.calculate_active_manual_allowances]: the loop body, on the
    pair [(active_total, expired_total)]. *)
Definition allowance_step (current_day : Z) (acc : Q * Q) (allowance : ManualAllowance)
    : Q * Q :=
  let '(active_total, expired_total) := acc in
  if is_expired allowance current_day then
    (active_total, expired_total + amount allowance)
  else
    (active_total + remaining_amount allowance current_day, expired_total).

(** [SGMEngine.calculate_active_manual_allowances]: returns
    [(active_total, expired_total)]. *)
Definition calculate_active_manual_allowances (allowances : list ManualAllowance)
    (current_day : Z) : Q * Q :=
  fold_left (allowance_step current_day) allowances (0, 0).

(** [SGMEngine.simulate_day]: returns
    [(DayResult, updated_last_recalc_day, updated_baseline_spend)].  The
    optional arguments are passed explicitly; [None] stands for an omitted
    [wallet_config], [reserved_config] or [manual_allowances]. *)
Definition simulate_day (day_index billing_day : Z) (requested_spend wallet_balance : Q)
    (accepted_history : list Q) (rule : SGMRule)
    (wallet_config : option WalletConfig)
    (reserved_config : option ReservedVolumesConfig)
    (cumulative_reserved_used : Q)
    (manual_allowances : option (list ManualAllowance))
    (last_recalc_day : Z) (baseline_spend : option Q) (manual_allowance : Q)
    : DayResult * Z * option Q :=
  let wallet_config :=
    match wallet_config with Some c => c | None => default_WalletConfig end in
  let manual_allowances :=
    match manual_allowances with Some l => l | None => [] end in
  let manual_allowances :=
    if Py.Qlt_bool 0 manual_allowance then
      manual_allowances
        ++ [mkManualAllowance manual_allowance day_index None "Legacy compatibility"]
    else manual_allowances in
  (* Step 1: reserved volumes *)
  let '(reserved_spend, new_cumulative_reserved) :=
    match reserved_config with
    | Some rc =>
        if Py.Qlt_bool 0 (monthly_volume rc) then
          let new_cumulative_reserved :=
            if (billing_day =? 1)%Z && (0 <? day_index)%Z then 0
            else cumulative_reserved_used in
          let reserved_available :=
            Py.max2 0 (monthly_volume rc - new_cumulative_reserved) in
          let reserved_spend := Py.min2 requested_spend reserved_available in
          (reserved_spend, new_cumulative_reserved + reserved_spend)
        else (0, cumulative_reserved_used)
    | None => (0, cumulative_reserved_used)
    end in
  let remaining_spend := requested_spend - reserved_spend in
  (* Step 2: SGM limit *)
  let '(daily_limit, updated_last_recalc_day, updated_baseline) :=
    calculate_daily_spend_limit accepted_history rule day_index last_recalc_day
                                baseline_spend in
  (* Step 3: wallet capacity and cap *)
  let max_wallet_capacity := calculate_max_capacity wallet_config daily_limit in
  let wallet_start := Py.min2 wallet_balance max_wallet_capacity in
  let '(active_allowances, expired_allowances) :=
    calculate_active_manual_allowances manual_allowances day_index in
  let base_sgm_capacity :=
    Py.min2 (wallet_start + daily_limit) max_wallet_capacity in
  let wallet_available := base_sgm_capacity + active_allowances in
  (* Step 4: remaining spend through SGM *)
  let sgm_spend := Py.min2 remaining_spend wallet_available in
  let sgm_from_wallet := Py.min2 sgm_spend base_sgm_capacity in
  let sgm_from_manual := sgm_spend - sgm_from_wallet in
  let wallet_end := base_sgm_capacity - sgm_from_wallet in
  (* Step 5: totals and intervention *)
  let total_accepted := reserved_spend + sgm_spend in
  let total_rejected := requested_spend - total_accepted in
  let manual_allowances_used := sgm_from_manual in
  let intervention :=
    if Py.Qlt_bool 0 remaining_spend && Py.Qlt_bool sgm_spend remaining_spend then
      let sgm_rejection_rate := (remaining_spend - sgm_spend) / remaining_spend in
      if Qle_bool 0.9 sgm_rejection_rate then shutdown
      else if Py.Qlt_bool 0 sgm_rejection_rate then throttle
      else none
    else none in
  let reserved_remaining :=
    match reserved_config with
    | Some rc => Py.max2 0 (monthly_volume rc - new_cumulative_reserved)
    | None => 0
    end in
  (mkDayResult day_index billing_day requested_spend total_accepted total_rejected
               reserved_spend sgm_spend daily_limit wallet_start wallet_end
               max_wallet_capacity intervention reserved_remaining
               new_cumulative_reserved manual_allowances_used expired_allowances,
   updated_last_recalc_day, updated_baseline).

End Engine.

(** ** Views of [simulate_day] used by the proofs *)

(** The allowance list after the legacy [manual_allowance] amount has been
    normalised into an entry without expiration. *)
Definition effective_allowances (manual_allowances : option (list ManualAllowance))
    (manual_allowance : Q) (day_index : Z) : list ManualAllowance :=
  let l := match manual_allowances with Some l => l | None => [] end in
  if Py.Qlt_bool 0 manual_allowance then
    l ++ [mkManualAllowance manual_allowance day_index None "Legacy compatibility"]
  else l.

(** The cumulative reserved usage the day starts from: zero on a cycle
    wrap, the carried value otherwise. *)
Definition cycle_start_usage (billing_day day_index : Z) (cumulative_reserved_used : Q) : Q :=
  if (billing_day =? 1)%Z && (0 <? day_index)%Z then 0 else cumulative_reserved_used.

(** Step 1 of [simulate_day]: [(reserved_spend, new_cumulative_reserved)]. *)
Definition reserved_step (reserved_config : option ReservedVolumesConfig)
    (billing_day day_index : Z) (requested_spend cumulative_reserved_used : Q) : Q * Q :=
  match reserved_config with
  | Some rc =>
      if Py.Qlt_bool 0 (monthly_volume rc) then
        let c0 := cycle_start_usage billing_day day_index cumulative_reserved_used in
        let spend := Qmin requested_spend (Qmax 0 (monthly_volume rc - c0)) in
        (spend, c0 + spend)
      else (0, cumulative_reserved_used)
  | None => (0, cumulative_reserved_used)
  end.

(** The classification made at the end of [simulate_day], as a function of
    the non-reserved remainder and of [sgm_spend]. *)
Definition classify (remaining_spend sgm_spend : Q) : Intervention :=
  if Py.Qlt_bool 0 remaining_spend && Py.Qlt_bool sgm_spend remaining_spend then
    if Qle_bool 0.9 ((remaining_spend - sgm_spend) / remaining_spend) then shutdown
    else if Py.Qlt_bool 0 ((remaining_spend - sgm_spend) / remaining_spend) then throttle
    else none
  else none.



(** A rational stand-in for [x ** y] (its linearisation at [x = 1]), used
    only to run the engine on concrete inputs. *)
Definition linear_pow (x y : Q) : Q := 1 + (x - 1) * y.

(** The rule of the worked examples: growth 20 %, minimum 20 dollars. *)
Definition rule_20_20 : SGMRule := mkSGMRule "Test Rule" 20 20 true false 0 true.

(** The same rule with weekly recalculation on Mondays. *)
Definition rule_weekly : SGMRule := mkSGMRule "Weekly Rule" 20 20 true true 0 true.

(** Two histories that differ only before their last seven entries. *)
Definition history_a : list Q := [1; 9; 5; 6; 7; 8; 9; 10; 11].
Definition history_b : list Q := [400; 5; 6; 7; 8; 9; 10; 11].

(** The capacity multiplier a wallet configuration applies to the daily
    limit (read off [calculate_max_capacity]). *)
Definition capacity_multiplier (cfg : WalletConfig) : Q :=
  if String.eqb (model cfg) "daily_limit_2x" then 2
  else if String.eqb (model cfg) "three_day_budget" then 3
  else if String.eqb (model cfg) "custom" && Py.truthy (custom_multiplier cfg) then
    match custom_multiplier cfg with Some k => k | None => 2 end
  else 2.

(** The wallet configuration in effect when the argument may be omitted. *)
Definition wallet_config_or_default (wc : option WalletConfig) : WalletConfig :=
  match wc with Some c => c | None => default_WalletConfig end.

(** The allowance list passed, [[]] when omitted. *)
Definition allowances_or_empty (mas : option (list ManualAllowance)) : list ManualAllowance :=
  match mas with Some l => l | None => [] end.

(** A reserved configuration of 100 a month on a 30-day cycle. *)
Definition reserved_100 : ReservedVolumesConfig := mkReservedVolumesConfig 100 1 30.

(** ** The command-line driver *)

(** [range(n)] as Python integers. *)
Definition py_range (n : nat) : list Z := map Z.of_nat (seq 0 n).

(** The local variables of [run_cli] that its simulation loop updates. *)
Record CliState : Type := mkCliState {
  st_results : list DayResult;
  st_wallet_balance : Q;
  st_accepted_history : list Q;
  st_billing_day : Z;
  st_cumulative_reserved : Q;
  st_last_recalc_day : Z;
  st_baseline_spend : option Q
}.

(** [run_cli]: the reserved configuration built from the arguments. *)
Definition cli_reserved (reserved_volume : Q) (arg_billing_day : Z)
    : option ReservedVolumesConfig :=
  if Py.Qlt_bool 0 reserved_volume
  then Some (mkReservedVolumesConfig reserved_volume arg_billing_day 30)
  else None.

(** [run_cli]: the state before the loop. *)
Definition cli_initial (reserved : option ReservedVolumesConfig) (arg_billing_day : Z)
    : CliState :=
  mkCliState [] 0 []
             (match reserved with Some _ => arg_billing_day | None => 1%Z end)
             0 0%Z None.

(** [run_cli]: one iteration of [for day_index, spend in enumerate(daily_spends)]. *)
Definition cli_step (fpow : Q -> Q -> Q) (rule : SGMRule)
    (reserved : option ReservedVolumesConfig) (st : CliState)
    (day_index : Z) (spend : Q) : CliState :=
  let '(result, last_recalc_day, baseline_spend) :=
    simulate_day fpow day_index (st_billing_day st) spend (st_wallet_balance st)
                 (st_accepted_history st) rule (Some default_WalletConfig) reserved
                 (st_cumulative_reserved st) (Some []) (st_last_recalc_day st)
                 (st_baseline_spend st) 0 in
  let results := st_results st ++ [result] in
  let wallet_balance := wallet_balance_end result in
  let accepted_history := st_accepted_history st ++ [accepted_spend result] in
  let cumulative_reserved := cumulative_reserved_used result in
  let '(billing_day, cumulative_reserved) :=
    match reserved with
    | Some rc =>
        let billing_day := advance_billing_day rc (st_billing_day st) in
        (billing_day, if (billing_day =? 1)%Z then 0 else cumulative_reserved)
    | None => (st_billing_day st, cumulative_reserved)
    end in
  mkCliState results wallet_balance accepted_history billing_day cumulative_reserved
             last_recalc_day baseline_spend.

(** [run_cli]: the loop, [day_index] being the index of the first remaining
    spend. *)
Fixpoint cli_loop (fpow : Q -> Q -> Q) (rule : SGMRule)
    (reserved : option ReservedVolumesConfig) (day_index : Z)
    (daily_spends : list Q) (st : CliState) : CliState :=
  match daily_spends with
  | [] => st
  | spend :: rest =>
      cli_loop fpow rule reserved (day_index + 1) rest
               (cli_step fpow rule reserved st day_index spend)
  end.

(** [run_cli] from the parsed arguments to the list [results]: the rule is
    constructed (and may raise), then the loop runs over the scenario's
    daily spends. *)
Definition run_cli_simulation (fpow : Q -> Q -> Q) (growth_pct min_dollars : Q)
    (reserved_volume : Q) (arg_billing_day : Z) (daily_spends : list Q)
    : result (list DayResult) :=
  match new_SGMRule "CLI Rule" growth_pct min_dollars true false 0 true with
  | Raise e => Raise e
  | Ok rule =>
      let reserved := cli_reserved reserved_volume arg_billing_day in
      Ok (st_results (cli_loop fpow rule reserved 0 daily_spends
                        (cli_initial reserved arg_billing_day)))
  end.

(** [run_cli], summary output: the totals it prints. *)
Record CliSummary : Type := mkCliSummary {
  total_days : nat;
  total_requested : Q;
  total_accepted : Q;
  total_rejected : Q;
  total_reserved : Q;
  total_sgm : Q;
  acceptance_rate : Q;
  interventions : nat
}.

Definition is_intervention (r : DayResult) : bool :=
  match intervention_type r with none => false | _ => true end.

Definition cli_summary (results : list DayResult) : CliSummary :=
  let total_requested := Py.sum (map requested_spend results) in
  let total_accepted := Py.sum (map accepted_spend results) in
  let total_rejected := Py.sum (map rejected_spend results) in
  let total_reserved := Py.sum (map reserved_spend results) in
  let total_sgm := Py.sum (map sgm_spend results) in
  let interventions := List.length (filter is_intervention results) in
  let acceptance_rate :=
    if Py.Qlt_bool 0 total_requested
    then total_accepted / total_requested * 100 else 0 in
  mkCliSummary (List.length results) total_requested total_accepted total_rejected
               total_reserved total_sgm acceptance_rate interventions.

(** The wallet balance a day starts from in a run: the end balance of the
    previous day, [0] on the first day. *)
Definition carried_wallet (previous : list DayResult) : Q :=
  match rev previous with
  | [] => 0
  | r :: _ => wallet_balance_end r
  end.

(** The [DayResult] computed by one iteration of the loop of [run_cli]. *)
Definition cli_day (fpow : Q -> Q -> Q) (rule : SGMRule)
    (reserved : option ReservedVolumesConfig) (st : CliState)
    (day_index : Z) (spend : Q) : DayResult :=
  fst (fst (simulate_day fpow day_index (st_billing_day st) spend (st_wallet_balance st)
              (st_accepted_history st) rule (Some default_WalletConfig) reserved
              (st_cumulative_reserved st) (Some []) (st_last_recalc_day st)
              (st_baseline_spend st) 0)).

(** The rule [run_cli] constructs from its arguments. *)
Definition cli_rule (growth_pct min_dollars : Q) : SGMRule :=
  mkSGMRule "CLI Rule" growth_pct min_dollars true false 0 true.

(** What holds of every day of a [run_cli] run on non-negative spends with a
    monthly reserved volume [rv] (none when [rv <= 0]). *)
Definition cli_day_safe (rv : Q) (r : DayResult) : Prop :=
  0 <= wallet_balance_start r <= wallet_max_capacity r
  /\ 0 <= wallet_balance_end r <= wallet_max_capacity r
  /\ 0 <= daily_spend_limit r
  /\ 0 <= reserved_spend r <= requested_spend r
  /\ 0 <= sgm_spend r <= requested_spend r - reserved_spend r
  /\ 0 <= accepted_spend r
  /\ accepted_spend r = reserved_spend r + sgm_spend r
  /\ manual_allowances_used r == 0
  /\ 0 <= cumulative_reserved_used r
  /\ (0 < rv -> reserved_spend r <= rv)
  /\ (rv <= 0 -> reserved_spend r = 0).

(** Two days of spend ending in a spike. *)
Definition spike_days : list Q := [20; 500].

(** ** The engine on binary64 floats

    The same classes and static methods with Python's [float] as IEEE 754
    binary64 (round to nearest even), used to evaluate the code exactly
    where rounding decides.  Integers ([len], counts below 2^53) convert to
    floats exactly.  Two operations stay parameters: the float power
    [x ** y] ([fpow]) and the built-in [sum] over floats ([fsum]), whose
    accumulation depends on the interpreter (left to right before Python
    3.12, compensated since).  Rule objects are taken as constructed. *)

Module B64.

Import PrimFloat.
Local Open Scope float_scope.
Set Warnings "-inexact-float".

(** [max(a, b)], [max(a, b, c)] and [min(a, b)]: a later argument replaces
    the current one only when strictly greater (smaller). *)
Definition max2 (a b : float) : float := if ltb a b then b else a.
Definition max3 (a b c : float) : float := max2 (max2 a b) c.
Definition min2 (a b : float) : float := if ltb b a then b else a.

(** [float(n)] for a small non-negative integer. *)
Definition of_nat (n : nat) : float := Nat.iter n (fun x => x + 1) 0.

(** [sum(l)] accumulated left to right from [0]. *)
Definition seq_sum (l : list float) : float := fold_left add l 0.

(** A stand-in for [x ** y], its linearisation at [x = 1]. *)
Definition linear_pow (x y : float) : float := 1 + (x - 1) * y.

(** [l[-n:]] *)
Definition last_n (n : nat) (l : list float) : list float :=
  skipn (List.length l - n) l.

Record SGMRule : Type := mkSGMRule {
  name : string;
  growth_percentage : float;
  min_growth_dollars : float;
  enabled : bool;
  weekly_recalc_enabled : bool;
  weekly_recalc_day : Z;
  validate_bounds : bool
}.

Record ManualAllowance : Type := mkManualAllowance {
  amount : float;
  created_day : Z;
  expiration_days : option Z;
  reason : string
}.

Definition is_expired (self : ManualAllowance) (current_day : Z) : bool :=
  match expiration_days self with
  | None => false
  | Some e => (created_day self + e <=? current_day)%Z
  end.

Definition remaining_amount (self : ManualAllowance) (current_day : Z) : float :=
  if is_expired self current_day then 0 else amount self.

Record WalletConfig : Type := mkWalletConfig {
  model : string;
  custom_multiplier : option float
}.

Definition default_WalletConfig : WalletConfig :=
  mkWalletConfig "daily_limit_2x" None.

(** Truthiness of an [Optional[float]]: [None], [0.0] and [-0.0] are false. *)
Definition truthy (o : option float) : bool :=
  match o with
  | None => false
  | Some k => negb (eqb k 0)
  end.

Definition calculate_max_capacity (self : WalletConfig) (daily_limit : float) : float :=
  if String.eqb (model self) "daily_limit_2x" then daily_limit * 2
  else if String.eqb (model self) "three_day_budget" then daily_limit * 3
  else if String.eqb (model self) "custom" && truthy (custom_multiplier self) then
    match custom_multiplier self with
    | Some k => daily_limit * k
    | None => daily_limit * 2
    end
  else daily_limit * 2.

Record ReservedVolumesConfig : Type := mkReservedVolumesConfig {
  monthly_volume : float;
  billing_day_start : Z;
  days_in_cycle : Z
}.

Record DayResult : Type := mkDayResult {
  day_index : Z;
  billing_day : Z;
  requested_spend : float;
  accepted_spend : float;
  rejected_spend : float;
  reserved_spend : float;
  sgm_spend : float;
  daily_spend_limit : float;
  wallet_balance_start : float;
  wallet_balance_end : float;
  wallet_max_capacity : float;
  intervention_type : Intervention;
  reserved_remaining : float;
  cumulative_reserved_used : float;
  manual_allowances_used : float;
  expired_allowances : float
}.

Section Engine.

Variable fpow : float -> float -> float.
Variable fsum : list float -> float.

Definition should_recalc (accepted_history : list float) (rule : SGMRule)
    (current_day_index last_recalc_day : Z) : bool :=
  if weekly_recalc_enabled rule && (7 <=? List.length accepted_history)%nat then
    let days_since_recalc := (current_day_index - last_recalc_day)%Z in
    let current_weekday := (current_day_index mod 7)%Z in
    (7 <=? days_since_recalc)%Z && (current_weekday =? weekly_recalc_day rule)%Z
  else false.

Definition calculate_daily_spend_limit (accepted_history : list float) (rule : SGMRule)
    (current_day_index last_recalc_day : Z) (baseline_spend : option float)
    : float * Z * option float :=
  let '(last_recalc_day, baseline_spend) :=
    if should_recalc accepted_history rule current_day_index last_recalc_day then
      (current_day_index, Some (fsum (last_n 7 accepted_history) / 7))
    else (last_recalc_day, baseline_spend) in
  if (List.length accepted_history <? 7)%nat then
    if (List.length accepted_history =? 0)%nat then
      let daily_limit := min_growth_dollars rule / 7 in
      (daily_limit, last_recalc_day, baseline_spend)
    else
      let days_elapsed := List.length accepted_history in
      let total_so_far := fsum accepted_history in
      let days_remaining := (7 - days_elapsed)%nat in
      let needed_per_day :=
        (min_growth_dollars rule - total_so_far) / of_nat days_remaining in
      let current_avg := total_so_far / of_nat days_elapsed in
      let growth_based := current_avg * (1 + growth_percentage rule / 100) in
      let daily_limit :=
        max3 needed_per_day growth_based (min_growth_dollars rule / 7) in
      (daily_limit, last_recalc_day, baseline_spend)
  else
    let daily_limit :=
      match weekly_recalc_enabled rule, baseline_spend with
      | true, Some baseline =>
          let weekly_baseline := baseline * 7 in
          let weekly_growth_limit :=
            max2 (min_growth_dollars rule)
                 (weekly_baseline * (1 + growth_percentage rule / 100)) in
          weekly_growth_limit / 7
      | _, _ =>
          let recent_7 := fsum (last_n 7 accepted_history) in
          let recent_6 := fsum (last_n 6 accepted_history) in
          let growth_factor := fpow (1 + growth_percentage rule / 100) (1 / 7) in
          let exponential_limit := recent_7 * growth_factor - recent_6 in
          let linear_limit := recent_7 + min_growth_dollars rule / 7 - recent_6 in
          max3 exponential_limit linear_limit 0
      end in
    (daily_limit, last_recalc_day, baseline_spend).

Definition allowance_step (current_day : Z) (acc : float * float)
    (allowance : ManualAllowance) : float * float :=
  let '(active_total, expired_total) := acc in
  if is_expired allowance current_day then
    (active_total, expired_total + amount allowance)
  else
    (active_total + remaining_amount allowance current_day, expired_total).

Definition calculate_active_manual_allowances (allowances : list ManualAllowance)
    (current_day : Z) : float * float :=
  fold_left (allowance_step current_day) allowances (0, 0).

Definition simulate_day (day_index billing_day : Z) (requested_spend wallet_balance : float)
    (accepted_history : list float) (rule : SGMRule)
    (wallet_config : option WalletConfig)
    (reserved_config : option ReservedVolumesConfig)
    (cumulative_reserved_used : float)
    (manual_allowances : option (list ManualAllowance))
    (last_recalc_day : Z) (baseline_spend : option float) (manual_allowance : float)
    : DayResult * Z * option float :=
  let wallet_config :=
    match wallet_config with Some c => c | None => default_WalletConfig end in
  let manual_allowances :=
    match manual_allowances with Some l => l | None => [] end in
  let manual_allowances :=
    if ltb 0 manual_allowance then
      manual_allowances
        ++ [mkManualAllowance manual_allowance day_index None "Legacy compatibility"]
    else manual_allowances in
  let '(reserved_spend, new_cumulative_reserved) :=
    match reserved_config with
    | Some rc =>
        if ltb 0 (monthly_volume rc) then
          let new_cumulative_reserved :=
            if (billing_day =? 1)%Z && (0 <? day_index)%Z then 0
            else cumulative_reserved_used in
          let reserved_available :=
            max2 0 (monthly_volume rc - new_cumulative_reserved) in
          let reserved_spend := min2 requested_spend reserved_available in
          (reserved_spend, new_cumulative_reserved + reserved_spend)
        else (0, cumulative_reserved_used)
    | None => (0, cumulative_reserved_used)
    end in
  let remaining_spend := requested_spend - reserved_spend in
  let '(daily_limit, updated_last_recalc_day, updated_baseline) :=
    calculate_daily_spend_limit accepted_history rule day_index last_recalc_day
                                baseline_spend in
  let max_wallet_capacity := calculate_max_capacity wallet_config daily_limit in
  let wallet_start := min2 wallet_balance max_wallet_capacity in
  let '(active_allowances, expired_allowances) :=
    calculate_active_manual_allowances manual_allowances day_index in
  let base_sgm_capacity :=
    min2 (wallet_start + daily_limit) max_wallet_capacity in
  let wallet_available := base_sgm_capacity + active_allowances in
  let sgm_spend := min2 remaining_spend wallet_available in
  let sgm_from_wallet := min2 sgm_spend base_sgm_capacity in
  let sgm_from_manual := sgm_spend - sgm_from_wallet in
  let wallet_end := base_sgm_capacity - sgm_from_wallet in
  let total_accepted := reserved_spend + sgm_spend in
  let total_rejected := requested_spend - total_accepted in
  let manual_allowances_used := sgm_from_manual in
  let intervention :=
    if ltb 0 remaining_spend && ltb sgm_spend remaining_spend then
      let sgm_rejection_rate := (remaining_spend - sgm_spend) / remaining_spend in
      if leb 0.9 sgm_rejection_rate then shutdown
      else if ltb 0 sgm_rejection_rate then throttle
      else none
    else none in
  let reserved_remaining :=
    match reserved_config with
    | Some rc => max2 0 (monthly_volume rc - new_cumulative_reserved)
    | None => 0
    end in
  (mkDayResult day_index billing_day requested_spend total_accepted total_rejected
               reserved_spend sgm_spend daily_limit wallet_start wallet_end
               max_wallet_capacity intervention reserved_remaining
               new_cumulative_reserved manual_allowances_used expired_allowances,
   updated_last_recalc_day, updated_baseline).

End Engine.

(** The rule of the worked examples and a reserved volume of 0.9 a month. *)
Definition rule_20_20 : SGMRule := mkSGMRule "Test Rule" 20 20 true false 0 true.
Definition reserved_09 : ReservedVolumesConfig := mkReservedVolumesConfig 0.9 1 30.
Definition reserved_03 : ReservedVolumesConfig := mkReservedVolumesConfig 0.3 1 30.

End B64.
(** ** Auxiliary facts on the Python built-ins *)

Lemma Qlt_bool_iff (a b : Q) : Py.Qlt_bool a b = true <-> a < b.
Proof.
  unfold Py.Qlt_bool. rewrite negb_true_iff.
  split; intro H.
  - apply Qnot_le_lt. intro Hle. apply Qle_bool_iff in Hle. congruence.
  - destruct (Qle_bool b a) eqn:E; [|reflexivity].
    apply Qle_bool_iff in E. exfalso. apply (Qlt_not_le _ _ H E).
Qed.

Lemma Qlt_bool_false_iff (a b : Q) : Py.Qlt_bool a b = false <-> b <= a.
Proof.
  unfold Py.Qlt_bool. rewrite negb_false_iff. apply Qle_bool_iff.
Qed.

Lemma Qle_bool_false_iff (a b : Q) : Qle_bool a b = false <-> b < a.
Proof.
  split; intro H.
  - apply Qnot_le_lt. intro Hle. apply Qle_bool_iff in Hle. congruence.
  - destruct (Qle_bool a b) eqn:E; [|reflexivity].
    apply Qle_bool_iff in E. exfalso. apply (Qlt_not_le _ _ H E).
Qed.

Lemma Qdiv7 (x : Q) : x / 7 == x * (1 # 7).
Proof. reflexivity. Qed.

(** ** Rule construction *)

Section RuleConstruction.

Variables (nm : string) (g m : Q) (en wre : bool) (wd : Z) (vb : bool).

Lemma post_init_weekday_only :
  vb = false ->
  post_init (mkSGMRule nm g m en wre wd vb)
  = if negb ((0 <=? wd)%Z && (wd <=? 6)%Z)
    then Some (WeeklyRecalcDayOutOfRange wd) else None.
Proof. intros ->. reflexivity. Qed.

Lemma post_init_none_iff :
  post_init (mkSGMRule nm g m en wre wd vb) = None
  <-> (0 <= wd <= 6)%Z /\ (vb = true -> (5 <= g <= 50) /\ 20 <= m).
Proof.
  unfold post_init; cbn [validate_bounds growth_percentage min_growth_dollars
                         weekly_recalc_day].
  destruct vb.
  - destruct (Qle_bool 5 g) eqn:E5; destruct (Qle_bool g 50) eqn:E50; cbn [andb negb];
      try (split; [discriminate|];
           intros [_ H]; destruct (H eq_refl) as [[H5 H50] _];
           apply Qle_bool_iff in H5; apply Qle_bool_iff in H50; congruence).
    destruct (Py.Qlt_bool m 20) eqn:Em.
    + split; [discriminate|].
      intros [_ H]. destruct (H eq_refl) as [_ Hm].
      apply Qlt_bool_iff in Em. exfalso. apply (Qlt_not_le _ _ Em Hm).
    + apply Qlt_bool_false_iff in Em.
      apply Qle_bool_iff in E5. apply Qle_bool_iff in E50.
      destruct (0 <=? wd)%Z eqn:E0; destruct (wd <=? 6)%Z eqn:E6; cbn [andb negb];
        split; try discriminate; try lia; intros; try reflexivity;
        repeat split; try lia; assumption.
  - destruct (0 <=? wd)%Z eqn:E0; destruct (wd <=? 6)%Z eqn:E6; cbn [andb negb];
      split; try discriminate; try lia; intros; try reflexivity;
      split; try lia; discriminate.
Qed.

End RuleConstruction.


(** C2 (as stated) fails: with validation bypassed and weekday 7 the
    constructor still raises, although the claim's right-hand side (which
    requires that validation is not bypassed) is false. *)
Lemma C2_bypass_weekday_counterexample :
  new_SGMRule "bypass" 20 20 true false 7 false = Raise (WeeklyRecalcDayOutOfRange 7)
  /\ ~ (false = true
        /\ (~ (5 <= 20 <= 50) \/ 20 < 20 \/ ~ (0 <= 7 <= 6)%Z)).
Proof.
  split; [reflexivity|]. intros [H _]. discriminate.
Qed.

(** C2 (amended): constructing an [SGMRule] raises a validation error if and
    only if the weekly recalculation weekday is outside [0, 6] (checked even
    when validation is bypassed), or validation is not bypassed and the
    growth percentage is outside [5, 50] or the minimum growth dollars is
    below 20; otherwise construction returns the rule with exactly the
    fields given. *)
Theorem C2_rule_validation (nm : string) (g m : Q) (en wre : bool) (wd : Z) (vb : bool) :
  ((exists e, new_SGMRule nm g m en wre wd vb = Raise e)
   <-> (~ (0 <= wd <= 6)%Z
        \/ (vb = true /\ (~ (5 <= g <= 50) \/ m < 20))))
  /\ ((forall e, new_SGMRule nm g m en wre wd vb <> Raise e)
      -> new_SGMRule nm g m en wre wd vb = Ok (mkSGMRule nm g m en wre wd vb)).
Proof.
  unfold new_SGMRule.
  pose proof (post_init_none_iff nm g m en wre wd vb) as Hn.
  destruct (post_init (mkSGMRule nm g m en wre wd vb)) as [e|] eqn:E.
  - split.
    + split; [intros _ | intros _; exists e; reflexivity].
      destruct (Z_le_dec 0 wd) as [H0|H0]; [|left; lia].
      destruct (Z_le_dec wd 6) as [H6|H6]; [|left; lia].
      right. destruct vb.
      * split; [reflexivity|].
        destruct (Qlt_le_dec m 20) as [Hm|Hm]; [right; exact Hm|].
        left. intros Hg.
        assert (Some e = None) by (apply Hn; split; [lia|intros _; split; assumption]).
        discriminate.
      * assert (Some e = None) by (apply Hn; split; [lia|discriminate]).
        discriminate.
    + intros H. exfalso. exact (H e eq_refl).
  - split; [|reflexivity].
    destruct Hn as [Hn _]. destruct (Hn eq_refl) as [Hwd Hb].
    split.
    + intros [e He]. discriminate.
    + intros [Hbad | [Hvb [Hbad | Hbad]]].
      * exfalso. apply Hbad. exact Hwd.
      * exfalso. apply Hbad. apply (Hb Hvb).
      * exfalso. destruct (Hb Hvb) as [_ Hm]. apply (Qlt_not_le _ _ Hbad Hm).
Qed.

(** ** [simulate_day] field by field *)

Section SimulateDayView.

Variable fpow : Q -> Q -> Q.
Variables (day bday : Z) (req wallet : Q) (hist : list Q) (rule : SGMRule)
          (wc : option WalletConfig) (rc : option ReservedVolumesConfig) (cum : Q)
          (mas : option (list ManualAllowance)) (lrd : Z) (base : option Q) (legacy : Q).

Let out := simulate_day fpow day bday req wallet hist rule wc rc cum mas lrd base legacy.
Let res := fst (fst out).
Let lim := calculate_daily_spend_limit fpow hist rule day lrd base.
Let dl := fst (fst lim).
Let cfg := match wc with Some c => c | None => default_WalletConfig end.
Let cap := calculate_max_capacity cfg dl.
Let tot := calculate_active_manual_allowances (effective_allowances mas legacy day) day.
Let rsv := reserved_step rc bday day req cum.
Let wstart := Qmin wallet cap.
Let bcap := Qmin (wstart + dl) cap.
Let rem := req - fst rsv.
Let sgm := Qmin rem (bcap + fst tot).

(** [simulate_day] written out field by field. *)
Lemma simulate_day_view :
  out =
  (mkDayResult day bday req (fst rsv + sgm) (req - (fst rsv + sgm)) (fst rsv) sgm dl
               wstart (bcap - Qmin sgm bcap) cap (classify rem sgm)
               (match rc with
                | Some c => Qmax 0 (monthly_volume c - snd rsv)
                | None => 0
                end)
               (snd rsv) (sgm - Qmin sgm bcap) (snd tot),
   snd (fst lim), snd lim).
Proof.
  subst out res sgm rem bcap wstart rsv tot cap cfg dl lim.
  unfold simulate_day, reserved_step, effective_allowances, cycle_start_usage,
    classify, Py.max2, Py.min2.
  destruct (calculate_daily_spend_limit fpow hist rule day lrd base) as [[d l] b].
  destruct (calculate_active_manual_allowances _ day) as [a e].
  destruct rc as [c|]; [destruct (Py.Qlt_bool 0 (monthly_volume c))|]; reflexivity.
Qed.

Lemma simulate_day_fields :
  day_index res = day /\ billing_day res = bday /\ requested_spend res = req
  /\ accepted_spend res = fst rsv + sgm
  /\ rejected_spend res = req - (fst rsv + sgm)
  /\ reserved_spend res = fst rsv
  /\ sgm_spend res = sgm
  /\ daily_spend_limit res = dl
  /\ wallet_balance_start res = wstart
  /\ wallet_balance_end res = bcap - Qmin sgm bcap
  /\ wallet_max_capacity res = cap
  /\ intervention_type res = classify rem sgm
  /\ cumulative_reserved_used res = snd rsv
  /\ manual_allowances_used res = sgm - Qmin sgm bcap
  /\ expired_allowances res = snd tot.
Proof.
  subst res. rewrite simulate_day_view. cbn [fst snd].
  repeat split.
Qed.

End SimulateDayView.

(** ** Slices of the history *)

Lemma last_n_app (n : nat) (older recent : list Q) :
  List.length recent = n -> Py.last_n n (older ++ recent) = recent.
Proof.
  intros <-. unfold Py.last_n. rewrite length_app.
  replace (List.length older + List.length recent - List.length recent)%nat
    with (List.length older + 0)%nat by lia.
  rewrite skipn_app, Nat.add_0_r, skipn_all.
  replace (List.length older - List.length older)%nat with 0%nat by lia.
  reflexivity.
Qed.

Lemma last_n_length (n : nat) (l : list Q) :
  (n <= List.length l)%nat -> List.length (Py.last_n n l) = n.
Proof.
  intros H. unfold Py.last_n. rewrite length_skipn. lia.
Qed.

Lemma last_n_split (n : nat) (l : list Q) :
  l = firstn (List.length l - n) l ++ Py.last_n n l.
Proof. unfold Py.last_n. symmetry. apply firstn_skipn. Qed.

(** The last six entries are the last seven without their first one. *)
Lemma last_6_of_recent (older recent : list Q) :
  List.length recent = 7%nat -> Py.last_n 6 (older ++ recent) = tl recent.
Proof.
  intros H. destruct recent as [|a t]; [discriminate|].
  cbn [tl]. replace (older ++ a :: t) with ((older ++ [a]) ++ t)
    by (rewrite <- app_assoc; reflexivity).
  apply last_n_app. cbn in H. lia.
Qed.

Lemma last_6_of_last_7 (l : list Q) :
  (7 <= List.length l)%nat -> Py.last_n 6 l = tl (Py.last_n 7 l).
Proof.
  intros H. rewrite (last_n_split 7 l) at 1.
  apply last_6_of_recent. apply last_n_length. exact H.
Qed.

(** ** The growth-limit calculator, regime by regime *)

Section Limit.

Variable fpow : Q -> Q -> Q.
Variables (rule : SGMRule) (day lrd : Z) (base : option Q).

Lemma should_recalc_bootstrap (hist : list Q) :
  (List.length hist < 7)%nat -> should_recalc hist rule day lrd = false.
Proof.
  intros H. unfold should_recalc.
  replace (7 <=? List.length hist)%nat with false
    by (symmetry; apply Nat.leb_gt; exact H).
  rewrite andb_false_r. reflexivity.
Qed.

Lemma should_recalc_true_iff (hist : list Q) :
  should_recalc hist rule day lrd = true
  <-> weekly_recalc_enabled rule = true /\ (7 <= List.length hist)%nat
      /\ (7 <= day - lrd)%Z /\ (day mod 7 = weekly_recalc_day rule)%Z.
Proof.
  unfold should_recalc.
  destruct (weekly_recalc_enabled rule); cbn [andb].
  - destruct (Nat.leb_spec 7 (List.length hist)) as [Hl|Hl].
    + rewrite andb_true_iff, Z.leb_le, Z.eqb_eq. intuition.
    + split; [discriminate|]. intros (_ & H & _). lia.
  - split; [discriminate|]. intros (H & _). discriminate.
Qed.

Lemma limit_bootstrap (hist : list Q) :
  (List.length hist < 7)%nat ->
  calculate_daily_spend_limit fpow hist rule day lrd base
  = (if (List.length hist =? 0)%nat then min_growth_dollars rule / 7
     else Py.max3
            ((min_growth_dollars rule - Py.sum hist)
               / inject_Z (7 - Z.of_nat (List.length hist)))
            (Py.sum hist / inject_Z (Z.of_nat (List.length hist))
               * (1 + growth_percentage rule / 100))
            (min_growth_dollars rule / 7),
     lrd, base).
Proof.
  intros H. unfold calculate_daily_spend_limit.
  rewrite (should_recalc_bootstrap hist H).
  replace (List.length hist <? 7)%nat with true
    by (symmetry; apply Nat.ltb_lt; exact H).
  destruct (List.length hist =? 0)%nat; reflexivity.
Qed.

(** The bookkeeping returned in the steady state. *)
Lemma limit_bookkeeping (hist : list Q) :
  (snd (fst (calculate_daily_spend_limit fpow hist rule day lrd base)),
   snd (calculate_daily_spend_limit fpow hist rule day lrd base))
  = if should_recalc hist rule day lrd
    then (day, Some (Py.sum (Py.last_n 7 hist) / 7))
    else (lrd, base).
Proof.
  unfold calculate_daily_spend_limit.
  destruct (should_recalc hist rule day lrd);
    destruct (List.length hist <? 7)%nat;
    destruct (List.length hist =? 0)%nat; reflexivity.
Qed.

Lemma limit_steady (hist : list Q) :
  (7 <= List.length hist)%nat ->
  fst (fst (calculate_daily_spend_limit fpow hist rule day lrd base))
  = match weekly_recalc_enabled rule,
          snd (calculate_daily_spend_limit fpow hist rule day lrd base) with
    | true, Some b =>
        Qmax (min_growth_dollars rule) (b * 7 * (1 + growth_percentage rule / 100)) / 7
    | _, _ =>
        Py.max3
          (Py.sum (Py.last_n 7 hist) * fpow (1 + growth_percentage rule / 100) (1 / 7)
           - Py.sum (Py.last_n 6 hist))
          (Py.sum (Py.last_n 7 hist) + min_growth_dollars rule / 7
           - Py.sum (Py.last_n 6 hist))
          0
    end.
Proof.
  intros H. unfold calculate_daily_spend_limit.
  replace (List.length hist <? 7)%nat with false
    by (symmetry; apply Nat.ltb_ge; exact H).
  destruct (should_recalc hist rule day lrd); cbn [fst snd];
    destruct (weekly_recalc_enabled rule); try reflexivity;
    destruct base; reflexivity.
Qed.

(** Whatever the history, the limit is non-negative as soon as the rule's
    weekly minimum is. *)
Lemma limit_nonneg (hist : list Q) :
  0 <= min_growth_dollars rule ->
  0 <= fst (fst (calculate_daily_spend_limit fpow hist rule day lrd base)).
Proof.
  intros Hm.
  destruct (Nat.lt_ge_cases (List.length hist) 7) as [Hl|Hl].
  - rewrite (limit_bootstrap hist Hl). cbn [fst].
    destruct (List.length hist =? 0)%nat.
    + rewrite Qdiv7. lra.
    + unfold Py.max3. apply Qle_trans with (min_growth_dollars rule / 7).
      * rewrite Qdiv7. lra.
      * apply Q.le_max_r.
  - rewrite (limit_steady hist Hl).
    destruct (weekly_recalc_enabled rule);
      [destruct (snd (calculate_daily_spend_limit fpow hist rule day lrd base))|];
      try (unfold Py.max3; apply Q.le_max_r).
    rewrite Qdiv7.
    pose proof (Q.le_max_l (min_growth_dollars rule)
                  (q * 7 * (1 + growth_percentage rule / 100))).
    lra.
Qed.

End Limit.

(** ** Claims on the growth-limit calculator *)

(** Past the bootstrap the calculator reads the history only through its
    last seven entries. *)
Lemma limit_reads_last_7 (fpow : Q -> Q -> Q) (hist : list Q) (rule : SGMRule)
    (day lrd : Z) (base : option Q) :
  (7 <= List.length hist)%nat ->
  calculate_daily_spend_limit fpow hist rule day lrd base
  = calculate_daily_spend_limit fpow (Py.last_n 7 hist) rule day lrd base.
Proof.
  intros H.
  pose proof (last_n_length 7 hist H) as H7.
  assert (E7 : Py.last_n 7 (Py.last_n 7 hist) = Py.last_n 7 hist)
    by (apply (last_n_app 7 []); exact H7).
  assert (E6 : Py.last_n 6 (Py.last_n 7 hist) = Py.last_n 6 hist)
    by (rewrite (last_6_of_last_7 hist H); apply (last_6_of_recent []); exact H7).
  unfold calculate_daily_spend_limit, should_recalc.
  rewrite E7, E6, H7.
  replace (7 <=? List.length hist)%nat with true
    by (symmetry; apply Nat.leb_le; exact H).
  replace (List.length hist <? 7)%nat with false
    by (symmetry; apply Nat.ltb_ge; exact H).
  reflexivity.
Qed.

(** C3: for a history [older ++ recent] whose last seven accepted totals are
    [recent], when weekly recalculation is disabled or no baseline exists
    (none carried in and none set by this call), the limit is
    [max(R7 * (1 + g/100) ** (1/7) - R6, R7 + m/7 - R6, 0)] with [R7] the
    sum of [recent] and [R6] the sum of its last six entries. *)
Theorem C3_rolling_window_limit (fpow : Q -> Q -> Q) (older recent : list Q)
    (rule : SGMRule) (day lrd : Z) (base : option Q) :
  List.length recent = 7%nat ->
  weekly_recalc_enabled rule = false
  \/ snd (calculate_daily_spend_limit fpow (older ++ recent) rule day lrd base) = None ->
  fst (fst (calculate_daily_spend_limit fpow (older ++ recent) rule day lrd base))
  = Py.max3
      (Py.sum recent * fpow (1 + growth_percentage rule / 100) (1 / 7)
       - Py.sum (tl recent))
      (Py.sum recent + min_growth_dollars rule / 7 - Py.sum (tl recent))
      0.
Proof.
  intros H7 Hmode.
  assert (Hlen : (7 <= List.length (older ++ recent))%nat)
    by (rewrite length_app; lia).
  rewrite (limit_steady fpow rule day lrd base _ Hlen).
  rewrite (last_n_app 7 older recent H7), (last_6_of_recent older recent H7).
  destruct Hmode as [-> | ->]; [reflexivity|].
  destruct (weekly_recalc_enabled rule); reflexivity.
Qed.

(** C3 on the steady history of 5.0 a day with growth 20 and minimum 20:
    [R7 = 35], [R6 = 30]. *)
Lemma C3_rolling_window_limit_witness :
  List.length [5; 5; 5; 5; 5; 5; 5] = 7%nat
  /\ (weekly_recalc_enabled rule_20_20 = false
      \/ snd (calculate_daily_spend_limit linear_pow ([] ++ [5; 5; 5; 5; 5; 5; 5])
                rule_20_20 7 0 None) = None)
  /\ fst (fst (calculate_daily_spend_limit linear_pow ([] ++ [5; 5; 5; 5; 5; 5; 5])
                 rule_20_20 7 0 None))
     = Py.max3 (35 * linear_pow (1 + 20 / 100) (1 / 7) - 30) (35 + 20 / 7 - 30) 0.
Proof.
  split; [reflexivity|]. split; [left; reflexivity|].
  exact (C3_rolling_window_limit linear_pow [] [5; 5; 5; 5; 5; 5; 5] rule_20_20 7 0 None
           eq_refl (or_introl eq_refl)).
Defined.

(** The same example for an arbitrary power operator. *)
Lemma steady_history_limit (fpow : Q -> Q -> Q) :
  fst (fst (calculate_daily_spend_limit fpow [5; 5; 5; 5; 5; 5; 5] rule_20_20 7 0 None))
  = Py.max3 (35 * fpow (1 + 20 / 100) (1 / 7) - 30) (35 + 20 / 7 - 30) 0.
Proof. reflexivity. Qed.

(** C4: with fewer than seven history entries the limit is [m/7] on an empty
    history and otherwise
    [max((m - total) / (7 - n), (total / n) * (1 + g/100), m/7)], [n] being
    the number of entries and [total] their sum; in both cases it is at
    least the floor [m/7]. *)
Theorem C4_bootstrap_limit (fpow : Q -> Q -> Q) (hist : list Q) (rule : SGMRule)
    (day lrd : Z) (base : option Q) :
  (List.length hist < 7)%nat ->
  let limit := fst (fst (calculate_daily_spend_limit fpow hist rule day lrd base)) in
  (hist = [] -> limit = min_growth_dollars rule / 7)
  /\ (hist <> [] ->
      limit = Py.max3
                ((min_growth_dollars rule - Py.sum hist)
                   / inject_Z (7 - Z.of_nat (List.length hist)))
                (Py.sum hist / inject_Z (Z.of_nat (List.length hist))
                   * (1 + growth_percentage rule / 100))
                (min_growth_dollars rule / 7))
  /\ min_growth_dollars rule / 7 <= limit.
Proof.
  intros H limit. subst limit.
  rewrite (limit_bootstrap fpow rule day lrd base hist H). cbn [fst].
  destruct hist as [|a t].
  - cbn [List.length Nat.eqb]. repeat split.
    + intros Hne. exfalso. apply Hne. reflexivity.
    + apply Qle_refl.
  - cbn [List.length Nat.eqb]. repeat split.
    + discriminate.
    + unfold Py.max3. apply Q.le_max_r.
Qed.

(** C4 on day 0 with growth 20 and minimum 20: the limit is 20/7. *)
Lemma C4_bootstrap_limit_witness :
  (List.length (@nil Q) < 7)%nat
  /\ fst (fst (calculate_daily_spend_limit linear_pow [] rule_20_20 0 0 None)) = 20 / 7
  /\ 20 / 7 <= fst (fst (calculate_daily_spend_limit linear_pow [] rule_20_20 0 0 None)).
Proof.
  assert (H : (List.length (@nil Q) < 7)%nat) by (cbn; lia).
  split; [exact H|].
  pose proof (C4_bootstrap_limit linear_pow [] rule_20_20 0 0 None H) as [H0 [_ Hfloor]].
  split; [exact (H0 eq_refl) | exact Hfloor].
Defined.

(** C5: with weekly recalculation enabled and a history [older ++ recent]
    of at least seven entries, the call recalculates exactly when
    [day - last_recalc_day >= 7] and [day mod 7] is the rule's weekday; it
    then returns [day] as last-recalculation day and the mean of [recent] as
    baseline, and otherwise returns the bookkeeping unchanged.  With the
    returned last-recalculation day carried forward, no call made fewer
    than seven days after it recalculates.  Whenever the returned baseline
    exists, the limit is [max(m, baseline * 7 * (1 + g/100)) / 7]. *)
Theorem C5_weekly_recalculation (fpow : Q -> Q -> Q) (older recent : list Q)
    (rule : SGMRule) (day lrd : Z) (base : option Q) :
  weekly_recalc_enabled rule = true ->
  List.length recent = 7%nat ->
  let out := calculate_daily_spend_limit fpow (older ++ recent) rule day lrd base in
  ((7 <= day - lrd)%Z /\ (day mod 7 = weekly_recalc_day rule)%Z ->
   snd (fst out) = day /\ snd out = Some (Py.sum recent / 7))
  /\ (~ ((7 <= day - lrd)%Z /\ (day mod 7 = weekly_recalc_day rule)%Z) ->
      snd (fst out) = lrd /\ snd out = base)
  /\ (forall (hist' : list Q) (day' : Z) (base' : option Q),
        (day' - snd (fst out) < 7)%Z ->
        let out' :=
          calculate_daily_spend_limit fpow hist' rule day' (snd (fst out)) base' in
        snd (fst out') = snd (fst out) /\ snd out' = base')
  /\ (forall b : Q,
        snd out = Some b ->
        fst (fst out)
        = Qmax (min_growth_dollars rule) (b * 7 * (1 + growth_percentage rule / 100)) / 7).
Proof.
  intros Hen H7 out.
  assert (Hlen : (7 <= List.length (older ++ recent))%nat)
    by (rewrite length_app; lia).
  pose proof (limit_bookkeeping fpow rule day lrd base (older ++ recent)) as Hbk.
  fold out in Hbk. rewrite (last_n_app 7 older recent H7) in Hbk.
  pose proof (should_recalc_true_iff rule day lrd (older ++ recent)) as Hiff.
  repeat split.
  - destruct H as [Hd Hw].
    assert (Hs : should_recalc (older ++ recent) rule day lrd = true)
      by (apply Hiff; auto).
    rewrite Hs in Hbk. congruence.
  - destruct H as [Hd Hw].
    assert (Hs : should_recalc (older ++ recent) rule day lrd = true)
      by (apply Hiff; auto).
    rewrite Hs in Hbk. congruence.
  - clear Hiff.
    destruct (should_recalc (older ++ recent) rule day lrd) eqn:Hs; [|congruence].
    exfalso. apply H. apply should_recalc_true_iff in Hs. tauto.
  - clear Hiff.
    destruct (should_recalc (older ++ recent) rule day lrd) eqn:Hs; [|congruence].
    exfalso. apply H. apply should_recalc_true_iff in Hs. tauto.
  - pose proof (limit_bookkeeping fpow rule day' (snd (fst out)) base' hist') as Hbk'.
    destruct (should_recalc hist' rule day' (snd (fst out))) eqn:Hs; [|congruence].
    apply should_recalc_true_iff in Hs. lia.
  - pose proof (limit_bookkeeping fpow rule day' (snd (fst out)) base' hist') as Hbk'.
    destruct (should_recalc hist' rule day' (snd (fst out))) eqn:Hs; [|congruence].
    apply should_recalc_true_iff in Hs. lia.
  - intros b Hb.
    pose proof (limit_steady fpow rule day lrd base _ Hlen) as Hl.
    fold out in Hl. rewrite Hen, Hb in Hl. exact Hl.
Qed.

(** C5 on day 7 (a Monday) of a steady history of 5.0 a day: the baseline
    becomes 35/7 and the limit [max(20, 35/7 * 7 * 1.2) / 7]. *)
Lemma C5_weekly_recalculation_witness :
  let out := calculate_daily_spend_limit linear_pow ([] ++ [5; 5; 5; 5; 5; 5; 5])
               rule_weekly 7 0 None in
  weekly_recalc_enabled rule_weekly = true
  /\ List.length [5; 5; 5; 5; 5; 5; 5] = 7%nat
  /\ ((7 <= 7 - 0)%Z /\ (7 mod 7 = weekly_recalc_day rule_weekly)%Z)
  /\ (snd (fst out) = 7%Z /\ snd out = Some (35 / 7))
  /\ fst (fst out) = Qmax 20 (35 / 7 * 7 * (1 + 20 / 100)) / 7
  /\ (let out' := calculate_daily_spend_limit linear_pow [5; 5; 5; 5; 5; 5; 5; 6]
                     rule_weekly 8 (snd (fst out)) (Some (35 / 7)) in
      snd (fst out') = snd (fst out) /\ snd out' = Some (35 / 7)).
Proof.
  intros out.
  assert (Hen : weekly_recalc_enabled rule_weekly = true) by reflexivity.
  assert (H7 : List.length [5; 5; 5; 5; 5; 5; 5] = 7%nat) by reflexivity.
  assert (Hfire : (7 <= 7 - 0)%Z /\ (7 mod 7 = weekly_recalc_day rule_weekly)%Z)
    by (split; [lia | reflexivity]).
  destruct (C5_weekly_recalculation linear_pow [] [5; 5; 5; 5; 5; 5; 5] rule_weekly
              7 0 None Hen H7) as [Hyes [_ [Honce Hlim]]].
  split; [exact Hen|]. split; [exact H7|]. split; [exact Hfire|].
  split; [exact (Hyes Hfire)|].
  split; [exact (Hlim (35 / 7) (proj2 (Hyes Hfire)))|].
  apply (Honce [5; 5; 5; 5; 5; 5; 5; 6] 8%Z (Some (35 / 7))).
  rewrite (proj1 (Hyes Hfire)). lia.
Defined.

(** C10: two histories of at least seven entries that agree on their last
    seven entries give the same limit and the same bookkeeping, for the
    same rule, day, last-recalculation day and baseline. *)
Theorem C10_only_last_seven_read (fpow : Q -> Q -> Q) (hist1 hist2 : list Q)
    (rule : SGMRule) (day lrd : Z) (base : option Q) :
  (7 <= List.length hist1)%nat ->
  (7 <= List.length hist2)%nat ->
  Py.last_n 7 hist1 = Py.last_n 7 hist2 ->
  calculate_daily_spend_limit fpow hist1 rule day lrd base
  = calculate_daily_spend_limit fpow hist2 rule day lrd base.
Proof.
  intros H1 H2 E.
  rewrite (limit_reads_last_7 fpow hist1 rule day lrd base H1).
  rewrite (limit_reads_last_7 fpow hist2 rule day lrd base H2).
  rewrite E. reflexivity.
Qed.

(** C10 on two histories that differ only in their oldest entries. *)
Lemma C10_only_last_seven_read_witness :
  (7 <= List.length history_a)%nat
  /\ (7 <= List.length history_b)%nat
  /\ Py.last_n 7 history_a = Py.last_n 7 history_b
  /\ calculate_daily_spend_limit linear_pow history_a rule_weekly 14 7 None
     = calculate_daily_spend_limit linear_pow history_b rule_weekly 14 7 None.
Proof.
  assert (H1 : (7 <= List.length history_a)%nat) by (cbn; lia).
  assert (H2 : (7 <= List.length history_b)%nat) by (cbn; lia).
  assert (E : Py.last_n 7 history_a = Py.last_n 7 history_b) by reflexivity.
  split; [exact H1|]. split; [exact H2|]. split; [exact E|].
  exact (C10_only_last_seven_read linear_pow history_a history_b rule_weekly 14 7 None
           H1 H2 E).
Defined.

(** ** Claims on the daily settlement *)

Ltac qminmax :=
  repeat match goal with
  | |- context [Qmax ?a ?b] =>
      let m := fresh "mx" in
      pose proof (Q.max_spec a b); set (m := Qmax a b) in *; clearbody m
  | |- context [Qmin ?a ?b] =>
      let m := fresh "mn" in
      pose proof (Q.min_spec a b); set (m := Qmin a b) in *; clearbody m
  | H : context [Qmax ?a ?b] |- _ =>
      let m := fresh "mx" in
      pose proof (Q.max_spec a b); set (m := Qmax a b) in *; clearbody m
  | H : context [Qmin ?a ?b] |- _ =>
      let m := fresh "mn" in
      pose proof (Q.min_spec a b); set (m := Qmin a b) in *; clearbody m
  end.

Lemma calculate_max_capacity_multiplier (cfg : WalletConfig) (daily_limit : Q) :
  calculate_max_capacity cfg daily_limit = daily_limit * capacity_multiplier cfg.
Proof.
  unfold calculate_max_capacity, capacity_multiplier.
  destruct (String.eqb (model cfg) "daily_limit_2x"); [reflexivity|].
  destruct (String.eqb (model cfg) "three_day_budget"); [reflexivity|].
  destruct (String.eqb (model cfg) "custom" && Py.truthy (custom_multiplier cfg));
    [|reflexivity].
  destruct (custom_multiplier cfg); reflexivity.
Qed.

Lemma capacity_multiplier_nonneg (cfg : WalletConfig) :
  (forall k, custom_multiplier cfg = Some k -> 0 <= k) ->
  0 <= capacity_multiplier cfg.
Proof.
  intros H. unfold capacity_multiplier.
  destruct (String.eqb (model cfg) "daily_limit_2x"); [lra|].
  destruct (String.eqb (model cfg) "three_day_budget"); [lra|].
  destruct (String.eqb (model cfg) "custom" && Py.truthy (custom_multiplier cfg));
    [|lra].
  destruct (custom_multiplier cfg) as [k|]; [apply H; reflexivity | lra].
Qed.



(** The active and expired totals, generalised over the accumulators. *)
Lemma allowance_fold_nonneg (current_day : Z) (l : list ManualAllowance) (acc : Q * Q) :
  Forall (fun a => 0 <= amount a) l ->
  0 <= fst acc ->
  0 <= fst (fold_left (allowance_step current_day) l acc).
Proof.
  intros Hl. revert acc.
  induction Hl as [|a t Ha Ht IH]; intros [act ex] Hacc; cbn [fold_left]; [exact Hacc|].
  apply IH. unfold allowance_step, remaining_amount.
  destruct (is_expired a current_day); cbn [fst] in *; lra.
Qed.

Lemma active_allowances_nonneg (mas : option (list ManualAllowance)) (legacy : Q)
    (day : Z) :
  Forall (fun a => 0 <= amount a) (allowances_or_empty mas) ->
  0 <= fst (calculate_active_manual_allowances (effective_allowances mas legacy day) day).
Proof.
  intros H. unfold calculate_active_manual_allowances.
  apply allowance_fold_nonneg; [|cbn; lra].
  unfold effective_allowances. fold (allowances_or_empty mas).
  destruct (Py.Qlt_bool 0 legacy) eqn:E; [|exact H].
  apply Forall_app. split; [exact H|].
  constructor; [|constructor]. cbn [amount].
  apply Qlt_bool_iff in E. lra.
Qed.




Section Binary64Reserved.

Import PrimFloat.
Local Open Scope float_scope.
Set Warnings "-inexact-float".

(** C7 (as stated) fails on the code's floats: with a monthly volume of 0.9,
    a carried usage of 0.3 (within the volume) and a request of 1000,
    [0.9 - 0.3] rounds to 0.6000000000000001, which is the reserved spend,
    and the returned usage [0.3 + 0.6000000000000001] is
    0.9000000000000001, above the monthly volume.  (First simulated day, no
    history: neither [sum] nor [**] is evaluated.) *)
Lemma C7_usage_above_volume_counterexample :
  let r := fst (fst (B64.simulate_day B64.linear_pow B64.seq_sum 0 15 1000 0 []
                       B64.rule_20_20 None (Some B64.reserved_09) 0.3 None 0 None 0)) in
  leb 0.3 (B64.monthly_volume B64.reserved_09) = true
  /\ B64.reserved_spend r = 0.6000000000000001
  /\ B64.cumulative_reserved_used r = 0.9000000000000001
  /\ leb (B64.cumulative_reserved_used r) (B64.monthly_volume B64.reserved_09) = false.
Proof.
  vm_compute. repeat split.
Qed.

(** The same rounding on the accepted spend: a request of 0.9 against a
    reserved volume of 0.3 is accepted as [0.3 + (0.9 - 0.3)], which is
    0.9000000000000001, and the rejected spend is negative. *)
Lemma binary64_accepted_above_request :
  let r := fst (fst (B64.simulate_day B64.linear_pow B64.seq_sum 0 15 0.9 0 []
                       B64.rule_20_20 None (Some B64.reserved_03) 0 None 0 None 0)) in
  B64.accepted_spend r = 0.9000000000000001
  /\ ltb (B64.requested_spend r) (B64.accepted_spend r) = true
  /\ ltb (B64.rejected_spend r) 0 = true.
Proof.
  vm_compute. repeat split.
Qed.

End Binary64Reserved.

(** C7 (amended): with a reserved configuration of positive monthly volume,
    the cumulative usage the day starts from is zero when [billing_day = 1]
    and [day_index > 0] and the carried value otherwise; [reserved_spend] is
    [min(requested_spend, max(0, monthly_volume - that usage))], so it
    exceeds neither the request nor the volume still available; the
    returned cumulative usage is that usage plus [reserved_spend].  Without
    a reserved configuration [reserved_spend] is 0 and the cumulative usage
    is returned unchanged. *)
Theorem C7_reserved_volume (fpow : Q -> Q -> Q) (day bday : Z)
    (req wallet : Q) (hist : list Q) (rule : SGMRule) (wc : option WalletConfig)
    (cum : Q) (mas : option (list ManualAllowance)) (lrd : Z) (base : option Q)
    (legacy : Q) :
  (forall rc : ReservedVolumesConfig,
      0 < monthly_volume rc ->
      let r := fst (fst (simulate_day fpow day bday req wallet hist rule wc (Some rc)
                           cum mas lrd base legacy)) in
      let start := if (bday =? 1)%Z && (0 <? day)%Z then 0 else cum in
      ((bday = 1%Z /\ (0 < day)%Z) -> start = 0)
      /\ (~ (bday = 1%Z /\ (0 < day)%Z) -> start = cum)
      /\ reserved_spend r = Qmin req (Qmax 0 (monthly_volume rc - start))
      /\ cumulative_reserved_used r = start + reserved_spend r
      /\ reserved_spend r <= Qmax 0 (monthly_volume rc - start)
      /\ reserved_spend r <= req)
  /\ (let r := fst (fst (simulate_day fpow day bday req wallet hist rule wc None
                           cum mas lrd base legacy)) in
      reserved_spend r = 0 /\ cumulative_reserved_used r = cum).
Proof.
  split.
  - intros rc Hmv r start.
    destruct (simulate_day_fields fpow day bday req wallet hist rule wc (Some rc) cum mas
                lrd base legacy)
      as (_ & _ & _ & _ & _ & Hr & _ & _ & _ & _ & _ & _ & Hc & _).
    fold r in Hr, Hc. rewrite Hc, Hr. clear Hr Hc r.
    unfold reserved_step, cycle_start_usage. fold start.
    apply Qlt_bool_iff in Hmv. rewrite Hmv. apply Qlt_bool_iff in Hmv.
    cbn [fst snd].
    split; [|split; [|split; [reflexivity|split; [reflexivity|split]]]].
    + intros [Hb Hd]. subst start.
      replace (bday =? 1)%Z with true by (symmetry; apply Z.eqb_eq; exact Hb).
      replace (0 <? day)%Z with true by (symmetry; apply Z.ltb_lt; exact Hd).
      reflexivity.
    + intros Hn. subst start.
      destruct (Z.eqb_spec bday 1) as [Hb|Hb]; [|reflexivity].
      destruct (Z.ltb_spec 0 day) as [Hd|Hd]; [|reflexivity].
      exfalso. apply Hn. split; assumption.
    + apply Q.le_min_r.
    + apply Q.le_min_l.
  - intros r.
    destruct (simulate_day_fields fpow day bday req wallet hist rule wc None cum mas
                lrd base legacy)
      as (_ & _ & _ & _ & _ & Hr & _ & _ & _ & _ & _ & _ & Hc & _).
    fold r in Hr, Hc. rewrite Hc, Hr. split; reflexivity.
Qed.

(** C7 on the first day of a new cycle (day 30, billing day 1) with 95 of a
    monthly volume of 100 carried in and a request of 10: the usage restarts
    from zero and the whole request is served from the reserved volume. *)
Lemma C7_reserved_volume_witness :
  let r := fst (fst (simulate_day linear_pow 30 1 10 0 [] rule_20_20 None
                       (Some reserved_100) 95 None 0 None 0)) in
  0 < monthly_volume reserved_100
  /\ reserved_spend r = Qmin 10 (Qmax 0 (monthly_volume reserved_100 - 0))
  /\ cumulative_reserved_used r = 0 + reserved_spend r
  /\ reserved_spend r <= Qmax 0 (monthly_volume reserved_100 - 0)
  /\ reserved_spend r <= 10.
Proof.
  intros r.
  assert (Hmv : 0 < monthly_volume reserved_100) by (cbn; lra).
  destruct (C7_reserved_volume linear_pow 30 1 10 0 [] rule_20_20 None 95 None 0 None 0)
    as [Hsome _].
  destruct (Hsome reserved_100 Hmv) as (_ & _ & Hs & Hc & Hle & Hreq).
  split; [exact Hmv|]. split; [exact Hs|]. split; [exact Hc|].
  split; [exact Hle | exact Hreq].
Defined.

(** C8: the intervention of a day is a function of the non-reserved
    remainder [requested_spend - reserved_spend] and of [sgm_spend] alone.
    When the remainder is positive and [sgm_spend] is below it, the
    rejection rate [(remainder - sgm_spend) / remainder] gives "shutdown"
    when it is at least 0.90 and "throttle" when it lies strictly between 0
    and 0.90; in every other case the intervention is "none". *)
Theorem C8_intervention_classification (fpow : Q -> Q -> Q) (day bday : Z)
    (req wallet : Q) (hist : list Q) (rule : SGMRule) (wc : option WalletConfig)
    (rc : option ReservedVolumesConfig) (cum : Q)
    (mas : option (list ManualAllowance)) (lrd : Z) (base : option Q) (legacy : Q) :
  let r := fst (fst (simulate_day fpow day bday req wallet hist rule wc rc cum mas
                       lrd base legacy)) in
  let remainder := requested_spend r - reserved_spend r in
  let rate := (remainder - sgm_spend r) / remainder in
  intervention_type r = classify remainder (sgm_spend r)
  /\ (0 < remainder -> sgm_spend r < remainder -> 0.9 <= rate ->
      intervention_type r = shutdown)
  /\ (0 < remainder -> sgm_spend r < remainder -> 0 < rate < 0.9 ->
      intervention_type r = throttle)
  /\ (~ (0 < remainder /\ sgm_spend r < remainder) -> intervention_type r = none)
  /\ (0 < remainder -> sgm_spend r < remainder -> 0 < rate).
Proof.
  intros r remainder rate.
  destruct (simulate_day_fields fpow day bday req wallet hist rule wc rc cum mas
              lrd base legacy)
    as (_ & _ & Hq & _ & _ & Hr & Hs & _ & _ & _ & _ & Hi & _).
  fold r in Hq, Hr, Hs, Hi.
  assert (Hcl : intervention_type r = classify remainder (sgm_spend r)).
  { rewrite Hi. subst remainder. rewrite Hq, Hr, Hs. reflexivity. }
  rewrite Hcl. clear Hi Hq Hr Hs Hcl. subst rate.
  set (s := sgm_spend r). clearbody remainder s. clear r.
  unfold classify.
  split; [reflexivity|]. split; [|split; [|split]].
  - intros H0 Hlt Hrate.
    apply Qlt_bool_iff in H0. apply Qlt_bool_iff in Hlt. rewrite H0, Hlt. cbn [andb].
    apply Qle_bool_iff in Hrate. rewrite Hrate. reflexivity.
  - intros H0 Hlt [Hpos Hrate].
    apply Qlt_bool_iff in H0. apply Qlt_bool_iff in Hlt. rewrite H0, Hlt. cbn [andb].
    apply Qle_bool_false_iff in Hrate. rewrite Hrate.
    apply Qlt_bool_iff in Hpos. rewrite Hpos. reflexivity.
  - intros Hn.
    destruct (Py.Qlt_bool 0 remainder) eqn:E0; [|reflexivity].
    destruct (Py.Qlt_bool s remainder) eqn:E1; [|reflexivity].
    exfalso. apply Hn. split; apply Qlt_bool_iff; assumption.
  - intros H0 Hlt.
    apply Qlt_shift_div_l; [exact H0|]. lra.
Qed.

(** C8 on a day with no reserved volume, an empty wallet on day 0 (limit
    20/7) and a request of 200/7: exactly 90 % of the remainder is rejected
    and the day is a shutdown. *)
Lemma C8_intervention_classification_witness :
  let r := fst (fst (simulate_day linear_pow 0 1 (200 / 7) 0 [] rule_20_20 None None 0
                       None 0 None 0)) in
  let remainder := requested_spend r - reserved_spend r in
  0 < remainder /\ sgm_spend r < remainder
  /\ (remainder - sgm_spend r) / remainder == 0.9
  /\ intervention_type r = shutdown.
Proof.
  intros r remainder.
  assert (H0 : 0 < remainder) by reflexivity.
  assert (H1 : sgm_spend r < remainder) by reflexivity.
  assert (H2 : 0.9 <= (remainder - sgm_spend r) / remainder)
    by (vm_compute; discriminate).
  destruct (C8_intervention_classification linear_pow 0 1 (200 / 7) 0 [] rule_20_20
              None None 0 None 0 None 0) as (_ & Hshut & _).
  split; [exact H0|]. split; [exact H1|]. split; [reflexivity|].
  exact (Hshut H0 H1 H2).
Defined.

(** ** Claims on the allowance registry *)





(** ** Further properties of the daily settlement *)

Lemma reserved_step_le_request (rc : option ReservedVolumesConfig) (bday day : Z)
    (req cum : Q) :
  0 <= req ->
  fst (reserved_step rc bday day req cum) <= req
  /\ 0 <= fst (reserved_step rc bday day req cum).
Proof.
  intros H. unfold reserved_step.
  destruct rc as [c|]; [destruct (Py.Qlt_bool 0 (monthly_volume c))|]; cbn [fst];
    try (split; lra).
  split; qminmax; lra.
Qed.

(** Non-negativity of the quantities [simulate_day] computes before it
    settles the request. *)
Lemma day_inputs_nonneg (fpow : Q -> Q -> Q) (day lrd : Z) (hist : list Q)
    (rule : SGMRule) (wc : option WalletConfig) (mas : option (list ManualAllowance))
    (base : option Q) (legacy : Q) :
  0 <= min_growth_dollars rule ->
  (forall k, custom_multiplier (wallet_config_or_default wc) = Some k -> 0 <= k) ->
  Forall (fun a => 0 <= amount a) (allowances_or_empty mas) ->
  let dl := fst (fst (calculate_daily_spend_limit fpow hist rule day lrd base)) in
  0 <= dl
  /\ 0 <= calculate_max_capacity (wallet_config_or_default wc) dl
  /\ 0 <= fst (calculate_active_manual_allowances (effective_allowances mas legacy day) day).
Proof.
  intros Hm Hk Hall dl.
  assert (Hdl : 0 <= dl) by (apply limit_nonneg; exact Hm).
  split; [exact Hdl|]. split.
  - rewrite calculate_max_capacity_multiplier.
    apply Qmult_le_0_compat; [exact Hdl | apply capacity_multiplier_nonneg; exact Hk].
  - apply active_allowances_nonneg. exact Hall.
Qed.

(** Whatever the inputs, the SGM path never accepts more than the
    non-reserved remainder and the part served by manual allowances is
    never negative; the accepted spend is the reserved spend plus the SGM
    spend and the rejected spend is the request minus the accepted spend,
    as the code computes them. *)
Theorem day_conservation (fpow : Q -> Q -> Q) (day bday : Z)
    (req wallet : Q) (hist : list Q) (rule : SGMRule) (wc : option WalletConfig)
    (rc : option ReservedVolumesConfig) (cum : Q)
    (mas : option (list ManualAllowance)) (lrd : Z) (base : option Q) (legacy : Q) :
  let r := fst (fst (simulate_day fpow day bday req wallet hist rule wc rc cum mas
                       lrd base legacy)) in
  requested_spend r = req
  /\ accepted_spend r = reserved_spend r + sgm_spend r
  /\ rejected_spend r = requested_spend r - accepted_spend r
  /\ sgm_spend r <= requested_spend r - reserved_spend r
  /\ 0 <= manual_allowances_used r.
Proof.
  intros r.
  destruct (simulate_day_fields fpow day bday req wallet hist rule wc rc cum mas
              lrd base legacy)
    as (_ & _ & Hq & Ha & Hj & Hr & Hs & _ & _ & _ & _ & _ & _ & Hm & _).
  fold r in Hq, Ha, Hj, Hr, Hs, Hm.
  rewrite Ha, Hj, Hq, Hr, Hs, Hm.
  set (rs := fst (reserved_step rc bday day req cum)). clearbody rs.
  split; [reflexivity|]. split; [reflexivity|]. split; [reflexivity|].
  split; [apply Q.le_min_l|]. qminmax. lra.
Qed.

(** The wallet is drained before any manual allowance is touched: whenever
    part of the day's spend came from manual allowances, the wallet ends the
    day empty. *)
Theorem day_wallet_before_allowance (fpow : Q -> Q -> Q) (day bday : Z)
    (req wallet : Q) (hist : list Q) (rule : SGMRule) (wc : option WalletConfig)
    (rc : option ReservedVolumesConfig) (cum : Q)
    (mas : option (list ManualAllowance)) (lrd : Z) (base : option Q) (legacy : Q) :
  let r := fst (fst (simulate_day fpow day bday req wallet hist rule wc rc cum mas
                       lrd base legacy)) in
  0 < manual_allowances_used r -> wallet_balance_end r == 0.
Proof.
  intros r.
  destruct (simulate_day_fields fpow day bday req wallet hist rule wc rc cum mas
              lrd base legacy)
    as (_ & _ & _ & _ & _ & _ & _ & _ & _ & Hwe & _ & _ & _ & Hm & _).
  fold r in Hwe, Hm. rewrite Hwe, Hm. clear.
  intros H. qminmax. lra.
Qed.

Lemma day_wallet_before_allowance_witness :
  let r := fst (fst (simulate_day linear_pow 0 1 10 0 [] rule_20_20 None None 0
                       (Some [mkManualAllowance 5 0 None "grant"]) 0 None 0)) in
  0 < manual_allowances_used r /\ wallet_balance_end r == 0.
Proof.
  intros r.
  assert (H : 0 < manual_allowances_used r) by reflexivity.
  split; [exact H|].
  exact (day_wallet_before_allowance linear_pow 0 1 10 0 [] rule_20_20 None None 0
           (Some [mkManualAllowance 5 0 None "grant"]) 0 None 0 H).
Defined.

(** With non-negative inputs every amount of the result is non-negative and
    the manual-allowance part is at most the SGM spend it belongs to. *)
Theorem day_amounts_nonneg (fpow : Q -> Q -> Q) (day bday : Z)
    (req wallet : Q) (hist : list Q) (rule : SGMRule) (wc : option WalletConfig)
    (rc : option ReservedVolumesConfig) (cum : Q)
    (mas : option (list ManualAllowance)) (lrd : Z) (base : option Q) (legacy : Q) :
  0 <= wallet ->
  0 <= req ->
  0 <= min_growth_dollars rule ->
  -100 <= growth_percentage rule ->
  (forall k, custom_multiplier (wallet_config_or_default wc) = Some k -> 0 <= k) ->
  Forall (fun a => 0 <= amount a) (allowances_or_empty mas) ->
  let r := fst (fst (simulate_day fpow day bday req wallet hist rule wc rc cum mas
                       lrd base legacy)) in
  0 <= reserved_spend r
  /\ 0 <= sgm_spend r
  /\ 0 <= accepted_spend r
  /\ 0 <= daily_spend_limit r
  /\ manual_allowances_used r <= sgm_spend r.
Proof.
  intros Hw Hreq Hmin _ Hk Hall r.
  destruct (simulate_day_fields fpow day bday req wallet hist rule wc rc cum mas
              lrd base legacy)
    as (_ & _ & _ & Ha & _ & Hr & Hs & Hd & _ & _ & _ & _ & _ & Hm & _).
  fold r in Ha, Hr, Hs, Hd, Hm.
  fold (wallet_config_or_default wc) in Ha, Hs, Hm.
  rewrite Ha, Hr, Hs, Hd, Hm.
  destruct (day_inputs_nonneg fpow day lrd hist rule wc mas base legacy Hmin Hk Hall)
    as (Hdl & Hcap & Hact).
  destruct (reserved_step_le_request rc bday day req cum Hreq) as [Hrs Hrs0].
  set (dl := fst (fst (calculate_daily_spend_limit fpow hist rule day lrd base))) in *.
  set (cap := calculate_max_capacity (wallet_config_or_default wc) dl) in *.
  set (act := fst (calculate_active_manual_allowances
                     (effective_allowances mas legacy day) day)) in *.
  set (rs := fst (reserved_step rc bday day req cum)) in *.
  clearbody dl cap act rs.
  repeat split; try assumption; qminmax; lra.
Qed.

Lemma day_amounts_nonneg_witness :
  let mas := Some [mkManualAllowance 5 0 (Some 3%Z) "grant"] in
  let r := fst (fst (simulate_day linear_pow 0 1 10 3 [] rule_20_20 None None 0
                       mas 0 None 0)) in
  0 <= 3 /\ 0 <= 10 /\ 0 <= min_growth_dollars rule_20_20
  /\ -100 <= growth_percentage rule_20_20
  /\ 0 <= sgm_spend r
  /\ manual_allowances_used r <= sgm_spend r.
Proof.
  intros mas r.
  assert (Hw : 0 <= 3) by lra.
  assert (Hr : 0 <= 10) by lra.
  assert (Hm : 0 <= min_growth_dollars rule_20_20) by (cbn; lra).
  assert (Hg : -100 <= growth_percentage rule_20_20) by (cbn; lra).
  assert (Hk : forall k, custom_multiplier (wallet_config_or_default None) = Some k
                         -> 0 <= k) by (intros k H; discriminate H).
  assert (Ha : Forall (fun a => 0 <= amount a) (allowances_or_empty mas))
    by (constructor; [cbn; lra | constructor]).
  destruct (day_amounts_nonneg linear_pow 0 1 10 3 [] rule_20_20 None None 0
              mas 0 None 0 Hw Hr Hm Hg Hk Ha) as (_ & Hs & _ & _ & Hu).
  split; [exact Hw|]. split; [exact Hr|]. split; [exact Hm|]. split; [exact Hg|].
  split; [exact Hs | exact Hu].
Defined.

(** The legacy [manual_allowance] amount is the same as one more allowance
    without expiration created that day at the end of the list, and an
    amount that is not positive is ignored. *)
Theorem day_legacy_allowance (fpow : Q -> Q -> Q) (day bday : Z)
    (req wallet : Q) (hist : list Q) (rule : SGMRule) (wc : option WalletConfig)
    (rc : option ReservedVolumesConfig) (cum : Q)
    (mas : option (list ManualAllowance)) (lrd : Z) (base : option Q) (legacy : Q) :
  (0 < legacy ->
   simulate_day fpow day bday req wallet hist rule wc rc cum mas lrd base legacy
   = simulate_day fpow day bday req wallet hist rule wc rc cum
       (Some (allowances_or_empty mas
                ++ [mkManualAllowance legacy day None "Legacy compatibility"]))
       lrd base 0)
  /\ (legacy <= 0 ->
      simulate_day fpow day bday req wallet hist rule wc rc cum mas lrd base legacy
      = simulate_day fpow day bday req wallet hist rule wc rc cum mas lrd base 0).
Proof.
  split; intros H.
  - apply Qlt_bool_iff in H.
    rewrite !simulate_day_view. unfold effective_allowances, allowances_or_empty.
    rewrite H. reflexivity.
  - apply Qlt_bool_false_iff in H.
    rewrite !simulate_day_view. unfold effective_allowances.
    rewrite H. reflexivity.
Qed.

Lemma day_legacy_allowance_witness :
  0 < 60
  /\ simulate_day linear_pow 15 16 75 10 [4; 4; 4] rule_20_20 None None 0 None 0 None 60
     = simulate_day linear_pow 15 16 75 10 [4; 4; 4] rule_20_20 None None 0
         (Some (allowances_or_empty None
                  ++ [mkManualAllowance 60 15 None "Legacy compatibility"]))
         0 None 0.
Proof.
  assert (H : 0 < 60) by reflexivity.
  split; [exact H|].
  exact (proj1 (day_legacy_allowance linear_pow 15 16 75 10 [4; 4; 4] rule_20_20
                  None None 0 None 0 None 60) H).
Defined.

(** Reserved volume is consumed first: a non-negative request that fits in
    what is left of the monthly volume is served from it entirely; nothing
    is drawn from the wallet or from allowances, nothing is rejected, the
    day is not an intervention, and the wallet banks the whole daily limit
    up to its capacity. *)
Theorem day_reserved_first (fpow : Q -> Q -> Q) (day bday : Z)
    (req wallet : Q) (hist : list Q) (rule : SGMRule) (wc : option WalletConfig)
    (rc : ReservedVolumesConfig) (cum : Q)
    (mas : option (list ManualAllowance)) (lrd : Z) (base : option Q) (legacy : Q) :
  0 <= wallet ->
  0 <= min_growth_dollars rule ->
  (forall k, custom_multiplier (wallet_config_or_default wc) = Some k -> 0 <= k) ->
  Forall (fun a => 0 <= amount a) (allowances_or_empty mas) ->
  0 < monthly_volume rc ->
  0 <= req <= monthly_volume rc - cycle_start_usage bday day cum ->
  let r := fst (fst (simulate_day fpow day bday req wallet hist rule wc (Some rc) cum mas
                       lrd base legacy)) in
  reserved_spend r == req
  /\ sgm_spend r == 0
  /\ manual_allowances_used r == 0
  /\ accepted_spend r == req
  /\ rejected_spend r == 0
  /\ intervention_type r = none
  /\ wallet_balance_end r
     == Qmin (wallet_balance_start r + daily_spend_limit r) (wallet_max_capacity r).
Proof.
  intros Hw Hmin Hk Hall Hmv [Hreq0 Hreq] r.
  destruct (simulate_day_fields fpow day bday req wallet hist rule wc (Some rc) cum mas
              lrd base legacy)
    as (_ & _ & _ & Ha & Hj & Hr & Hs & Hd & Hws & Hwe & Hc & Hi & _ & Hm & _).
  fold r in Ha, Hj, Hr, Hs, Hd, Hws, Hwe, Hc, Hi, Hm.
  fold (wallet_config_or_default wc) in Ha, Hj, Hs, Hws, Hwe, Hc, Hi, Hm.
  destruct (day_inputs_nonneg fpow day lrd hist rule wc mas base legacy Hmin Hk Hall)
    as (Hdl & Hcap & Hact).
  assert (Hrs : fst (reserved_step (Some rc) bday day req cum) == req).
  { unfold reserved_step. apply Qlt_bool_iff in Hmv. rewrite Hmv. cbn [fst].
    qminmax. lra. }
  set (dl := fst (fst (calculate_daily_spend_limit fpow hist rule day lrd base))) in *.
  set (cap := calculate_max_capacity (wallet_config_or_default wc) dl) in *.
  set (act := fst (calculate_active_manual_allowances
                     (effective_allowances mas legacy day) day)) in *.
  set (rs := fst (reserved_step (Some rc) bday day req cum)) in *.
  clearbody dl cap act rs.
  assert (Hsgm : Qmin (req - rs) (Qmin (Qmin wallet cap + dl) cap + act) == 0)
    by (qminmax; lra).
  rewrite Ha, Hj, Hr, Hs, Hd, Hws, Hwe, Hc, Hi, Hm.
  split; [exact Hrs|]. split; [exact Hsgm|].
  split; [qminmax; lra|]. split; [qminmax; lra|]. split; [qminmax; lra|].
  split; [|qminmax; lra].
  unfold classify.
  replace (Py.Qlt_bool 0 (req - rs)) with false
    by (symmetry; apply Qlt_bool_false_iff; lra).
  reflexivity.
Qed.

Lemma day_reserved_first_witness :
  let r := fst (fst (simulate_day linear_pow 3 4 5 0 [5; 5; 5] rule_20_20 None
                       (Some reserved_100) 15 None 0 None 0)) in
  0 <= 0 /\ 0 < monthly_volume reserved_100
  /\ 0 <= 5 <= monthly_volume reserved_100 - cycle_start_usage 4 3 15
  /\ reserved_spend r == 5 /\ sgm_spend r == 0 /\ intervention_type r = none.
Proof.
  intros r.
  assert (Hw : 0 <= 0) by lra.
  assert (Hm : 0 <= min_growth_dollars rule_20_20) by (cbn; lra).
  assert (Hk : forall k, custom_multiplier (wallet_config_or_default None) = Some k
                         -> 0 <= k) by (intros k H; discriminate H).
  assert (Ha : Forall (fun a => 0 <= amount a) (allowances_or_empty None))
    by constructor.
  assert (Hmv : 0 < monthly_volume reserved_100) by reflexivity.
  assert (Hreq : 0 <= 5 <= monthly_volume reserved_100 - cycle_start_usage 4 3 15)
    by (split; vm_compute; discriminate).
  destruct (day_reserved_first linear_pow 3 4 5 0 [5; 5; 5] rule_20_20 None
              reserved_100 15 None 0 None 0 Hw Hm Hk Ha Hmv Hreq)
    as (H1 & H2 & _ & _ & _ & H6 & _).
  split; [exact Hw|]. split; [exact Hmv|]. split; [exact Hreq|].
  split; [exact H1|]. split; [exact H2 | exact H6].
Defined.

(** Reserved accounting: the reported [reserved_remaining] is always
    [max(0, monthly_volume - cumulative_reserved_used)] of the same result,
    hence never negative, and with a positive monthly volume and a
    non-negative request it never exceeds the volume that was available
    when the day started. *)
Theorem day_reserved_remaining (fpow : Q -> Q -> Q) (day bday : Z)
    (req wallet : Q) (hist : list Q) (rule : SGMRule) (wc : option WalletConfig)
    (rc : ReservedVolumesConfig) (cum : Q)
    (mas : option (list ManualAllowance)) (lrd : Z) (base : option Q) (legacy : Q) :
  let r := fst (fst (simulate_day fpow day bday req wallet hist rule wc (Some rc) cum mas
                       lrd base legacy)) in
  reserved_remaining r = Qmax 0 (monthly_volume rc - cumulative_reserved_used r)
  /\ 0 <= reserved_remaining r
  /\ (0 < monthly_volume rc -> 0 <= req ->
      reserved_remaining r
      <= Qmax 0 (monthly_volume rc - cycle_start_usage bday day cum)).
Proof.
  intros r. subst r. rewrite simulate_day_view. cbn [fst snd reserved_remaining
    cumulative_reserved_used].
  split; [reflexivity|]. split; [apply Q.le_max_l|].
  intros Hmv Hreq. unfold reserved_step.
  apply Qlt_bool_iff in Hmv. rewrite Hmv. apply Qlt_bool_iff in Hmv. cbn [snd].
  set (start := cycle_start_usage bday day cum). clearbody start.
  qminmax. lra.
Qed.

Lemma day_reserved_remaining_witness :
  let r := fst (fst (simulate_day linear_pow 20 21 10 5 [5; 5; 5] rule_20_20 None
                       (Some reserved_100) 95 None 0 None 0)) in
  0 < monthly_volume reserved_100 /\ 0 <= 10
  /\ reserved_remaining r
     <= Qmax 0 (monthly_volume reserved_100 - cycle_start_usage 21 20 95).
Proof.
  intros r.
  assert (Hmv : 0 < monthly_volume reserved_100) by reflexivity.
  assert (Hreq : 0 <= 10) by lra.
  split; [exact Hmv|]. split; [exact Hreq|].
  exact (proj2 (proj2 (day_reserved_remaining linear_pow 20 21 10 5 [5; 5; 5] rule_20_20
                         None reserved_100 95 None 0 None 0)) Hmv Hreq).
Defined.



(** The day's limit is always spendable: with a non-negative carried
    balance, a capacity multiplier of at least 1 (every built-in model) and
    non-negative allowances, a non-reserved remainder that does not exceed
    the daily limit is taken by the SGM path as it is ([sgm_spend] is the
    remainder itself), without intervention. *)
Theorem day_within_limit_accepted (fpow : Q -> Q -> Q) (day bday : Z)
    (req wallet : Q) (hist : list Q) (rule : SGMRule) (wc : option WalletConfig)
    (rc : option ReservedVolumesConfig) (cum : Q)
    (mas : option (list ManualAllowance)) (lrd : Z) (base : option Q) (legacy : Q) :
  0 <= wallet ->
  0 <= min_growth_dollars rule ->
  -100 <= growth_percentage rule ->
  1 <= capacity_multiplier (wallet_config_or_default wc) ->
  Forall (fun a => 0 <= amount a) (allowances_or_empty mas) ->
  let r := fst (fst (simulate_day fpow day bday req wallet hist rule wc rc cum mas
                       lrd base legacy)) in
  requested_spend r - reserved_spend r <= daily_spend_limit r ->
  sgm_spend r = requested_spend r - reserved_spend r
  /\ intervention_type r = none.
Proof.
  intros Hw Hmin _ Hk Hall r.
  destruct (simulate_day_fields fpow day bday req wallet hist rule wc rc cum mas
              lrd base legacy)
    as (_ & _ & Hq & _ & _ & Hr & Hs & Hd & _ & _ & _ & Hi & _).
  fold r in Hq, Hr, Hs, Hd, Hi.
  fold (wallet_config_or_default wc) in Hs, Hi.
  rewrite Hs, Hq, Hr, Hd, Hi.
  pose proof (limit_nonneg fpow rule day lrd base hist Hmin) as Hdl.
  pose proof (active_allowances_nonneg mas legacy day Hall) as Hact.
  pose proof (calculate_max_capacity_multiplier (wallet_config_or_default wc)
                (fst (fst (calculate_daily_spend_limit fpow hist rule day lrd base))))
    as Hcap.
  set (dl := fst (fst (calculate_daily_spend_limit fpow hist rule day lrd base))) in *.
  set (k := capacity_multiplier (wallet_config_or_default wc)) in *.
  rewrite Hcap.
  set (act := fst (calculate_active_manual_allowances
                     (effective_allowances mas legacy day) day)) in *.
  set (rs := fst (reserved_step rc bday day req cum)) in *.
  clearbody dl k act rs.
  intros Hrem.
  assert (Hdk : dl <= dl * k) by nra.
  set (cap := dl * k) in *. clearbody cap.
  assert (Havail : req - rs <= Qmin (Qmin wallet cap + dl) cap + act)
    by (qminmax; lra).
  assert (Hsgm : Qmin (req - rs) (Qmin (Qmin wallet cap + dl) cap + act) = req - rs).
  { set (avail := Qmin (Qmin wallet cap + dl) cap + act) in *. clearbody avail.
    unfold Qmin, GenericMinMax.gmin.
    destruct (req - rs ?= avail) eqn:E; try reflexivity.
    exfalso. apply Qgt_alt in E. apply (Qlt_not_le _ _ E Havail). }
  rewrite Hsgm. split; [reflexivity|].
  unfold classify.
  replace (Py.Qlt_bool (req - rs) (req - rs)) with false
    by (symmetry; apply Qlt_bool_false_iff; apply Qle_refl).
  rewrite andb_false_r. reflexivity.
Qed.

Lemma day_within_limit_accepted_witness :
  let r := fst (fst (simulate_day linear_pow 0 1 2 0 [] rule_20_20 None None 0
                       None 0 None 0)) in
  0 <= 0 /\ 0 <= min_growth_dollars rule_20_20
  /\ -100 <= growth_percentage rule_20_20
  /\ 1 <= capacity_multiplier (wallet_config_or_default None)
  /\ requested_spend r - reserved_spend r <= daily_spend_limit r
  /\ sgm_spend r = requested_spend r - reserved_spend r
  /\ intervention_type r = none.
Proof.
  intros r.
  assert (Hw : 0 <= 0) by lra.
  assert (Hm : 0 <= min_growth_dollars rule_20_20) by (cbn; lra).
  assert (Hg : -100 <= growth_percentage rule_20_20) by (cbn; lra).
  assert (Hk : 1 <= capacity_multiplier (wallet_config_or_default None))
    by (vm_compute; discriminate).
  assert (Ha : Forall (fun a => 0 <= amount a) (allowances_or_empty None))
    by constructor.
  assert (Hrem : requested_spend r - reserved_spend r <= daily_spend_limit r)
    by (vm_compute; discriminate).
  destruct (day_within_limit_accepted linear_pow 0 1 2 0 [] rule_20_20 None None 0
              None 0 None 0 Hw Hm Hg Hk Ha Hrem) as (H1 & H3).
  split; [exact Hw|]. split; [exact Hm|]. split; [exact Hg|]. split; [exact Hk|].
  split; [exact Hrem|]. split; [exact H1 | exact H3].
Defined.

(** ** Further properties of the growth-limit calculator *)

Lemma sum_from (l : list Q) (x : Q) : fold_left Qplus l x == x + Py.sum l.
Proof.
  unfold Py.sum. revert x.
  induction l as [|a t IH]; intros x; cbn [fold_left]; [ring|].
  rewrite (IH (x + a)), (IH (0 + a)). ring.
Qed.

Lemma sum_cons (a : Q) (t : list Q) : Py.sum (a :: t) == a + Py.sum t.
Proof.
  unfold Py.sum at 1. cbn [fold_left]. rewrite sum_from. ring.
Qed.

Lemma sum_zero (l : list Q) : Forall (fun x => x == 0) l -> Py.sum l == 0.
Proof.
  induction 1 as [|a t Ha _ IH]; [reflexivity|].
  rewrite sum_cons, Ha, IH. ring.
Qed.

(** The limit is never negative, whatever the history holds (negative
    entries included), for a rule with a non-negative weekly minimum and a
    growth percentage of at least -100 (below it the power has no real
    value); in the bootstrap and in the baseline mode it is at least the
    floor [m / 7]. *)
Theorem limit_floor (fpow : Q -> Q -> Q) (hist : list Q) (rule : SGMRule)
    (day lrd : Z) (base : option Q) :
  0 <= min_growth_dollars rule ->
  -100 <= growth_percentage rule ->
  let out := calculate_daily_spend_limit fpow hist rule day lrd base in
  0 <= fst (fst out)
  /\ ((List.length hist < 7)%nat -> min_growth_dollars rule / 7 <= fst (fst out))
  /\ (weekly_recalc_enabled rule = true -> (7 <= List.length hist)%nat ->
      snd out <> None -> min_growth_dollars rule / 7 <= fst (fst out)).
Proof.
  intros Hm _ out. subst out.
  split; [apply limit_nonneg; exact Hm|]. split.
  - intros Hl. rewrite (limit_bootstrap fpow rule day lrd base hist Hl). cbn [fst].
    destruct (List.length hist =? 0)%nat; [apply Qle_refl|].
    unfold Py.max3. apply Q.le_max_r.
  - intros Hen Hl Hb. rewrite (limit_steady fpow rule day lrd base hist Hl), Hen.
    destruct (snd (calculate_daily_spend_limit fpow hist rule day lrd base)) as [b|];
      [|exfalso; apply Hb; reflexivity].
    rewrite !Qdiv7.
    pose proof (Q.le_max_l (min_growth_dollars rule)
                  (b * 7 * (1 + growth_percentage rule / 100))).
    lra.
Qed.

Lemma limit_floor_witness :
  let out := calculate_daily_spend_limit linear_pow [5; -3; 5; 5; 5; 5; 5; 5] rule_weekly
               14 7 (Some 5) in
  0 <= min_growth_dollars rule_weekly
  /\ -100 <= growth_percentage rule_weekly
  /\ 0 <= fst (fst out)
  /\ min_growth_dollars rule_weekly / 7 <= fst (fst out).
Proof.
  intros out.
  assert (Hm : 0 <= min_growth_dollars rule_weekly) by (cbn; lra).
  assert (Hg : -100 <= growth_percentage rule_weekly) by (cbn; lra).
  destruct (limit_floor linear_pow [5; -3; 5; 5; 5; 5; 5; 5] rule_weekly 14 7 (Some 5)
              Hm Hg) as (H0 & _ & Hb).
  split; [exact Hm|]. split; [exact Hg|]. split; [exact H0|].
  apply Hb; [reflexivity | cbn; lia | discriminate].
Defined.

Lemma limit_recalc_off (fpow : Q -> Q -> Q) (hist : list Q)
    (rule : SGMRule) (day lrd day' lrd' : Z) (base base' : option Q) :
  weekly_recalc_enabled rule = false ->
  calculate_daily_spend_limit fpow hist rule day lrd base
  = (fst (fst (calculate_daily_spend_limit fpow hist rule day' lrd' base')), lrd, base).
Proof.
  intros H. unfold calculate_daily_spend_limit, should_recalc. rewrite H.
  cbn [andb].
  destruct (List.length hist <? 7)%nat; [destruct (List.length hist =? 0)%nat|];
    reflexivity.
Qed.

(** With weekly recalculation disabled the bookkeeping is returned as it
    was passed and the limit depends on neither the day index, nor the
    last-recalculation day, nor the carried baseline. *)
Theorem limit_without_weekly_recalc (fpow : Q -> Q -> Q) (hist : list Q)
    (rule : SGMRule) (day lrd day' lrd' : Z) (base base' : option Q) :
  weekly_recalc_enabled rule = false ->
  calculate_daily_spend_limit fpow hist rule day lrd base
  = (fst (fst (calculate_daily_spend_limit fpow hist rule day' lrd' base')), lrd, base).
Proof.
  intros Hoff.
  assert (Hno : forall d l, should_recalc hist rule d l = false).
  { intros d l. unfold should_recalc. rewrite Hoff. reflexivity. }
  unfold calculate_daily_spend_limit. rewrite (Hno day lrd), (Hno day' lrd'), Hoff.
  destruct (Nat.ltb_spec (List.length hist) 7) as [Hshort|Hlong].
  - destruct (Nat.eqb_spec (List.length hist) 0); reflexivity.
  - reflexivity.
Qed.

Lemma limit_without_weekly_recalc_witness :
  weekly_recalc_enabled rule_20_20 = false
  /\ calculate_daily_spend_limit linear_pow history_a rule_20_20 14 0 (Some 3)
     = (fst (fst (calculate_daily_spend_limit linear_pow history_a rule_20_20 9 2 None)),
        0%Z, Some 3).
Proof.
  assert (H : weekly_recalc_enabled rule_20_20 = false) by reflexivity.
  split; [exact H|].
  exact (limit_without_weekly_recalc linear_pow history_a rule_20_20 14 0 9 2
           (Some 3) None H).
Defined.

(** The stepped curve of the baseline mode: with weekly recalculation
    enabled, a baseline carried in and fewer than seven days since the last
    recalculation, the limit is the same for every history of at least
    seven entries and the bookkeeping is unchanged. *)
Theorem limit_constant_between_recalcs (fpow : Q -> Q -> Q) (hist1 hist2 : list Q)
    (rule : SGMRule) (day lrd : Z) (b : Q) :
  weekly_recalc_enabled rule = true ->
  (7 <= List.length hist1)%nat ->
  (7 <= List.length hist2)%nat ->
  (day - lrd < 7)%Z ->
  calculate_daily_spend_limit fpow hist1 rule day lrd (Some b)
  = calculate_daily_spend_limit fpow hist2 rule day lrd (Some b)
  /\ calculate_daily_spend_limit fpow hist1 rule day lrd (Some b)
     = (Qmax (min_growth_dollars rule) (b * 7 * (1 + growth_percentage rule / 100)) / 7,
        lrd, Some b).
Proof.
  intros Hen H1 H2 Hd.
  assert (Hgen : forall h, (7 <= List.length h)%nat ->
            calculate_daily_spend_limit fpow h rule day lrd (Some b)
            = (Qmax (min_growth_dollars rule)
                 (b * 7 * (1 + growth_percentage rule / 100)) / 7, lrd, Some b)).
  { intros h Hh. unfold calculate_daily_spend_limit.
    assert (Hs : should_recalc h rule day lrd = false).
    { destruct (should_recalc h rule day lrd) eqn:E; [|reflexivity].
      apply should_recalc_true_iff in E. lia. }
    rewrite Hs, Hen.
    replace (List.length h <? 7)%nat with false
      by (symmetry; apply Nat.ltb_ge; exact Hh).
    reflexivity. }
  rewrite (Hgen hist1 H1), (Hgen hist2 H2). split; reflexivity.
Qed.

Lemma limit_constant_between_recalcs_witness :
  weekly_recalc_enabled rule_weekly = true
  /\ (7 <= List.length history_a)%nat /\ (7 <= List.length [9; 9; 9; 9; 9; 9; 9])%nat
  /\ (10 - 7 < 7)%Z
  /\ calculate_daily_spend_limit linear_pow history_a rule_weekly 10 7 (Some 5)
     = calculate_daily_spend_limit linear_pow [9; 9; 9; 9; 9; 9; 9] rule_weekly 10 7 (Some 5).
Proof.
  assert (Hen : weekly_recalc_enabled rule_weekly = true) by reflexivity.
  assert (H1 : (7 <= List.length history_a)%nat) by (cbn; lia).
  assert (H2 : (7 <= List.length [9; 9; 9; 9; 9; 9; 9])%nat) by (cbn; lia).
  assert (Hd : (10 - 7 < 7)%Z) by lia.
  split; [exact Hen|]. split; [exact H1|]. split; [exact H2|]. split; [exact Hd|].
  exact (proj1 (limit_constant_between_recalcs linear_pow history_a
                  [9; 9; 9; 9; 9; 9; 9] rule_weekly 10 7 5 Hen H1 H2 Hd)).
Defined.

(** An idle week resets the limit to the floor: in the rolling-window mode,
    when the last seven accepted totals are all zero the limit is [m / 7],
    whatever the power operator and the older history. *)
Theorem limit_after_idle_week (fpow : Q -> Q -> Q) (older recent : list Q)
    (rule : SGMRule) (day lrd : Z) (base : option Q) :
  List.length recent = 7%nat ->
  Forall (fun x => x == 0) recent ->
  0 <= min_growth_dollars rule ->
  weekly_recalc_enabled rule = false ->
  fst (fst (calculate_daily_spend_limit fpow (older ++ recent) rule day lrd base))
  == min_growth_dollars rule / 7.
Proof.
  intros H7 Hz Hm Hoff.
  assert (Hlen : (7 <= List.length (older ++ recent))%nat)
    by (rewrite length_app; lia).
  rewrite (limit_steady fpow rule day lrd base _ Hlen), Hoff.
  rewrite (last_n_app 7 older recent H7), (last_6_of_recent older recent H7).
  pose proof (sum_zero recent Hz) as H7z.
  assert (H6z : Py.sum (tl recent) == 0).
  { apply sum_zero. destruct recent as [|a t]; [constructor|].
    inversion Hz; subst. assumption. }
  unfold Py.max3.
  assert (He : Py.sum recent * fpow (1 + growth_percentage rule / 100) (1 / 7)
               - Py.sum (tl recent) == 0) by (rewrite H7z, H6z; ring).
  set (R7 := Py.sum recent) in *. set (R6 := Py.sum (tl recent)) in *.
  set (e := R7 * fpow (1 + growth_percentage rule / 100) (1 / 7) - R6) in *.
  clearbody R7 R6 e. rewrite Qdiv7 in *. qminmax. lra.
Qed.

Lemma limit_after_idle_week_witness :
  List.length [0; 0; 0; 0; 0; 0; 0] = 7%nat
  /\ Forall (fun x => x == 0) [0; 0; 0; 0; 0; 0; 0]
  /\ 0 <= min_growth_dollars rule_20_20
  /\ weekly_recalc_enabled rule_20_20 = false
  /\ fst (fst (calculate_daily_spend_limit linear_pow ([50; 60] ++ [0; 0; 0; 0; 0; 0; 0])
                 rule_20_20 9 0 None))
     == min_growth_dollars rule_20_20 / 7.
Proof.
  assert (H7 : List.length [0; 0; 0; 0; 0; 0; 0] = 7%nat) by reflexivity.
  assert (Hz : Forall (fun x => x == 0) [0; 0; 0; 0; 0; 0; 0])
    by (repeat constructor).
  assert (Hm : 0 <= min_growth_dollars rule_20_20) by (cbn; lra).
  assert (Hoff : weekly_recalc_enabled rule_20_20 = false) by reflexivity.
  split; [exact H7|]. split; [exact Hz|]. split; [exact Hm|]. split; [exact Hoff|].
  exact (limit_after_idle_week linear_pow [50; 60] [0; 0; 0; 0; 0; 0; 0] rule_20_20
           9 0 None H7 Hz Hm Hoff).
Defined.

(** ** Further properties of the allowance registry and of the data models *)

Lemma is_expired_monotone (a : ManualAllowance) (D D' : Z) :
  (D <= D')%Z -> is_expired a D = true -> is_expired a D' = true.
Proof.
  unfold is_expired. destruct (expiration_days a); [|discriminate].
  intros H E. apply Z.leb_le in E. apply Z.leb_le. lia.
Qed.

Lemma allowance_fold_monotone (D D' : Z) (l : list ManualAllowance) (x y x' y' : Q) :
  (D <= D')%Z ->
  Forall (fun a => 0 <= amount a) l ->
  x' <= x -> y <= y' ->
  fst (fold_left (allowance_step D') l (x', y')) <= fst (fold_left (allowance_step D) l (x, y))
  /\ snd (fold_left (allowance_step D) l (x, y)) <= snd (fold_left (allowance_step D') l (x', y')).
Proof.
  intros HD Hl. revert x y x' y'.
  induction Hl as [|a t Ha _ IH]; intros x y x' y' Hx Hy; cbn [fold_left].
  - cbn [fst snd]. split; assumption.
  - pose proof (is_expired_monotone a D D' HD) as Hmon.
    unfold allowance_step at 2 4 6 8. unfold remaining_amount.
    destruct (is_expired a D); [rewrite (Hmon eq_refl)|destruct (is_expired a D')];
      apply IH; lra.
Qed.

(** Expiry is permanent and only ever moves money from the active to the
    expired total: an allowance expired on some day is expired on every
    later day, and for non-negative amounts the active total never grows
    and the expired total never shrinks as days pass. *)
Theorem allowance_expiry_monotone (allowances : list ManualAllowance) (D D' : Z) :
  (D <= D')%Z ->
  Forall (fun a => 0 <= amount a) allowances ->
  Forall (fun a => is_expired a D = true -> is_expired a D' = true) allowances
  /\ fst (calculate_active_manual_allowances allowances D')
     <= fst (calculate_active_manual_allowances allowances D)
  /\ snd (calculate_active_manual_allowances allowances D)
     <= snd (calculate_active_manual_allowances allowances D').
Proof.
  intros HD Hl. split.
  - apply Forall_forall. intros a _. apply is_expired_monotone. exact HD.
  - unfold calculate_active_manual_allowances.
    apply allowance_fold_monotone; [exact HD | exact Hl | lra | lra].
Qed.

Lemma allowance_expiry_monotone_witness :
  let l := [mkManualAllowance 50 5 (Some 3%Z) "spike"; mkManualAllowance 7 0 None "permanent"] in
  (7 <= 8)%Z /\ Forall (fun a => 0 <= amount a) l
  /\ fst (calculate_active_manual_allowances l 8)
     <= fst (calculate_active_manual_allowances l 7).
Proof.
  intros l.
  assert (HD : (7 <= 8)%Z) by lia.
  assert (Hl : Forall (fun a => 0 <= amount a) l)
    by (repeat constructor; vm_compute; discriminate).
  split; [exact HD|]. split; [exact Hl|].
  exact (proj1 (proj2 (allowance_expiry_monotone l 7 8 HD Hl))).
Defined.

(** The wallet capacity is the daily limit times a multiplier that is never
    zero: 2 or 3, or the custom multiplier of a "custom" model.  A "custom"
    model whose multiplier is missing or zero falls back to 2 instead of
    giving a zero capacity. *)
Theorem capacity_multiplier_never_zero (cfg : WalletConfig) :
  (exists k : Q,
      ~ k == 0
      /\ (forall daily_limit, calculate_max_capacity cfg daily_limit = daily_limit * k)
      /\ (k = 2 \/ k = 3
          \/ (model cfg = "custom"%string /\ custom_multiplier cfg = Some k)))
  /\ (model cfg = "custom"%string ->
      (forall k0, custom_multiplier cfg = Some k0 -> k0 == 0) ->
      forall daily_limit, calculate_max_capacity cfg daily_limit = daily_limit * 2).
Proof.
  unfold calculate_max_capacity. split.
  - destruct (String.eqb (model cfg) "daily_limit_2x") eqn:E2.
    { exists 2. repeat split; auto; discriminate. }
    destruct (String.eqb_spec (model cfg) "three_day_budget") as [E3|E3].
    { exists 3. repeat split; auto; discriminate. }
    destruct (String.eqb_spec (model cfg) "custom") as [Ec|Ec]; cbn [andb].
    + destruct (custom_multiplier cfg) as [k|] eqn:Ek; cbn [Py.truthy].
      * destruct (Qeq_bool k 0) eqn:E0; cbn [negb].
        -- exists 2. repeat split; auto; discriminate.
        -- exists k. repeat split; auto.
           intros H. apply Qeq_bool_iff in H. congruence.
      * exists 2. repeat split; auto; discriminate.
    + exists 2. repeat split; auto; discriminate.
  - intros Ec Hk dl. rewrite Ec. cbn [String.eqb Ascii.eqb Bool.eqb andb].
    destruct (custom_multiplier cfg) as [k|]; cbn [Py.truthy]; [|reflexivity].
    replace (Qeq_bool k 0) with true
      by (symmetry; apply Qeq_bool_iff; apply Hk; reflexivity).
    reflexivity.
Qed.

Lemma capacity_multiplier_never_zero_witness :
  let cfg := mkWalletConfig "custom" (Some 0) in
  model cfg = "custom"%string
  /\ (forall k0, custom_multiplier cfg = Some k0 -> k0 == 0)
  /\ calculate_max_capacity cfg 10 = 10 * 2.
Proof.
  intros cfg.
  assert (Hm : model cfg = "custom"%string) by reflexivity.
  assert (Hk : forall k0, custom_multiplier cfg = Some k0 -> k0 == 0)
    by (intros k0 H; injection H as <-; reflexivity).
  split; [exact Hm|]. split; [exact Hk|].
  exact (proj2 (capacity_multiplier_never_zero cfg) Hm Hk 10).
Defined.

(** After [k] advances from billing day [d] of a cycle of [n] days. *)
Lemma advance_billing_day_iter (rc : ReservedVolumesConfig) (d : Z) (k : nat) :
  (1 <= d <= days_in_cycle rc)%Z ->
  Nat.iter k (advance_billing_day rc) d
  = ((d - 1 + Z.of_nat k) mod days_in_cycle rc + 1)%Z.
Proof.
  intros Hd. induction k as [|k IH].
  - change (Nat.iter 0 (advance_billing_day rc) d) with d.
    cbn [Z.of_nat]. rewrite Z.add_0_r, Z.mod_small by lia. lia.
  - change (Nat.iter (S k) (advance_billing_day rc) d)
      with (advance_billing_day rc (Nat.iter k (advance_billing_day rc) d)).
    rewrite IH. unfold advance_billing_day.
    set (n := days_in_cycle rc) in *.
    replace (d - 1 + Z.of_nat (S k))%Z with (d - 1 + Z.of_nat k + 1)%Z by lia.
    set (x := (d - 1 + Z.of_nat k)%Z).
    assert (Hn : (0 < n)%Z) by lia.
    pose proof (Z.mod_pos_bound x n Hn) as Hb.
    destruct (Z.ltb_spec n (x mod n + 1 + 1)) as [Hw|Hw].
    + assert (Hm : (x mod n = n - 1)%Z) by lia.
      rewrite <- (Z.add_mod_idemp_l x 1 n) by lia. rewrite Hm.
      replace (n - 1 + 1)%Z with (1 * n)%Z by lia.
      rewrite Z.mod_mul by lia. reflexivity.
    + rewrite <- (Z.add_mod_idemp_l x 1 n) by lia.
      rewrite (Z.mod_small (x mod n + 1) n) by lia. lia.
Qed.

(** The billing day cycles: from a day of the cycle, [advance_billing_day]
    returns the next day, wrapping from the last day to 1, stays within
    [1, days_in_cycle], and comes back to the starting day after
    [days_in_cycle] advances. *)
Theorem advance_billing_day_cycle (rc : ReservedVolumesConfig) (d : Z) :
  (1 <= d <= days_in_cycle rc)%Z ->
  (1 <= advance_billing_day rc d <= days_in_cycle rc)%Z
  /\ advance_billing_day rc d = (d mod days_in_cycle rc + 1)%Z
  /\ (advance_billing_day rc d = 1%Z <-> d = days_in_cycle rc)
  /\ Nat.iter (Z.to_nat (days_in_cycle rc)) (advance_billing_day rc) d = d.
Proof.
  intros Hd.
  assert (Hadv : advance_billing_day rc d = (d mod days_in_cycle rc + 1)%Z).
  { unfold advance_billing_day.
    destruct (Z.ltb_spec (days_in_cycle rc) (d + 1)) as [Hw|Hw].
    - assert (d = days_in_cycle rc) by lia. subst d.
      rewrite Z.mod_same by lia. reflexivity.
    - rewrite Z.mod_small by lia. reflexivity. }
  split; [|split; [exact Hadv|split]].
  - unfold advance_billing_day.
    destruct (Z.ltb_spec (days_in_cycle rc) (d + 1)); lia.
  - unfold advance_billing_day.
    destruct (Z.ltb_spec (days_in_cycle rc) (d + 1)); lia.
  - rewrite (advance_billing_day_iter rc d _ Hd).
    rewrite Z2Nat.id by lia.
    replace (d - 1 + days_in_cycle rc)%Z with (d - 1 + 1 * days_in_cycle rc)%Z by lia.
    rewrite Z.mod_add by lia. rewrite Z.mod_small by lia. lia.
Qed.

Lemma advance_billing_day_cycle_witness :
  (1 <= 30 <= days_in_cycle reserved_100)%Z
  /\ advance_billing_day reserved_100 30%Z = 1%Z
  /\ Nat.iter (Z.to_nat (days_in_cycle reserved_100)) (advance_billing_day reserved_100) 30%Z
     = 30%Z.
Proof.
  assert (H : (1 <= 30 <= days_in_cycle reserved_100)%Z) by (cbn; lia).
  destruct (advance_billing_day_cycle reserved_100 30%Z H) as (_ & _ & Hw & Hc).
  split; [exact H|]. split; [apply Hw; reflexivity | exact Hc].
Defined.

(** ** The command-line driver *)

Section CliLoop.

Variable fpow : Q -> Q -> Q.
Variable rule : SGMRule.
Variable reserved : option ReservedVolumesConfig.

Lemma cli_step_fields (st : CliState) (d : Z) (s : Q) :
  let r := cli_day fpow rule reserved st d s in
  let st1 := cli_step fpow rule reserved st d s in
  st_results st1 = st_results st ++ [r]
  /\ st_wallet_balance st1 = wallet_balance_end r
  /\ st_accepted_history st1 = st_accepted_history st ++ [accepted_spend r]
  /\ st_billing_day st1
     = match reserved with
       | Some rc => advance_billing_day rc (st_billing_day st)
       | None => st_billing_day st
       end
  /\ st_cumulative_reserved st1
     = match reserved with
       | Some rc =>
           if (advance_billing_day rc (st_billing_day st) =? 1)%Z then 0
           else cumulative_reserved_used r
       | None => cumulative_reserved_used r
       end
  /\ (weekly_recalc_enabled rule = false ->
      st_last_recalc_day st1 = st_last_recalc_day st
      /\ st_baseline_spend st1 = st_baseline_spend st).
Proof.
  intros r st1. subst r st1. unfold cli_step, cli_day.
  pose proof (simulate_day_view fpow d (st_billing_day st) s (st_wallet_balance st)
                (st_accepted_history st) rule (Some default_WalletConfig) reserved
                (st_cumulative_reserved st) (Some []) (st_last_recalc_day st)
                (st_baseline_spend st) 0) as Hv.
  destruct (simulate_day fpow d (st_billing_day st) s (st_wallet_balance st)
              (st_accepted_history st) rule (Some default_WalletConfig) reserved
              (st_cumulative_reserved st) (Some []) (st_last_recalc_day st)
              (st_baseline_spend st) 0) as [[r l] b].
  cbn [fst snd].
  assert (Hbk : weekly_recalc_enabled rule = false ->
                l = st_last_recalc_day st /\ b = st_baseline_spend st).
  { intros Hoff.
    rewrite (limit_recalc_off fpow (st_accepted_history st) rule d
               (st_last_recalc_day st) d (st_last_recalc_day st)
               (st_baseline_spend st) (st_baseline_spend st) Hoff) in Hv.
    cbn [fst snd] in Hv. injection Hv as _ Hl Hb. split; assumption. }
  destruct reserved as [rc|]; cbn [st_results st_wallet_balance st_accepted_history
    st_billing_day st_cumulative_reserved st_last_recalc_day st_baseline_spend];
    repeat split; try reflexivity; apply Hbk; assumption.
Qed.

(** A loop invariant [Inv] kept by every iteration on an admissible spend
    holds after the loop; the loop appends one result per spend, and every
    property [R] the iterations establish of their result, relative to the
    results that precede it, holds of each appended result. *)
Lemma cli_loop_invariant (Inv : CliState -> Z -> Prop)
    (R : list DayResult -> Q -> DayResult -> Prop) (ok : Q -> Prop) :
  (forall st d s, Inv st d -> ok s ->
     Inv (cli_step fpow rule reserved st d s) (d + 1)%Z
     /\ R (st_results st) s (cli_day fpow rule reserved st d s)) ->
  forall spends st d,
    Inv st d -> Forall ok spends ->
    let st' := cli_loop fpow rule reserved d spends st in
    Inv st' (d + Z.of_nat (List.length spends))%Z
    /\ exists new,
         st_results st' = st_results st ++ new
         /\ List.length new = List.length spends
         /\ forall k r s, nth_error new k = Some r -> nth_error spends k = Some s ->
                          R (st_results st ++ firstn k new) s r.
Proof.
  intros Hstep spends.
  induction spends as [|s rest IH]; intros st d Hinv Hok; cbn [cli_loop List.length].
  - split; [rewrite Z.add_0_r; exact Hinv|].
    exists []. rewrite app_nil_r. repeat split.
    intros [|k] r s H; discriminate H.
  - inversion Hok as [|? ? Hs Hrest]; subst.
    destruct (Hstep st d s Hinv Hs) as [Hinv1 HR].
    destruct (cli_step_fields st d s) as (Hres & _).
    destruct (IH _ _ Hinv1 Hrest) as (Hinv' & new & Hnew & Hlen & Hall).
    split.
    + replace (d + Z.of_nat (S (List.length rest)))%Z
        with (d + 1 + Z.of_nat (List.length rest))%Z by lia.
      exact Hinv'.
    + exists (cli_day fpow rule reserved st d s :: new).
      split; [|split].
      * rewrite Hnew, Hres, <- app_assoc. reflexivity.
      * cbn [List.length]. rewrite Hlen. reflexivity.
      * intros [|k] r s0 Hr Hs0; cbn [nth_error firstn] in *.
        -- injection Hr as <-. injection Hs0 as <-. rewrite app_nil_r. exact HR.
        -- specialize (Hall k r s0 Hr Hs0). rewrite Hres, <- app_assoc in Hall.
           exact Hall.
Qed.

End CliLoop.

Lemma map_pointwise {A B : Type} (f : A -> B) (l : list A) (l' : list B) :
  List.length l = List.length l' ->
  (forall k a b, nth_error l k = Some a -> nth_error l' k = Some b -> f a = b) ->
  map f l = l'.
Proof.
  revert l'. induction l as [|a t IH]; intros [|b t'] Hlen H; try discriminate.
  - reflexivity.
  - cbn [map]. f_equal.
    + exact (H 0%nat a b eq_refl eq_refl).
    + apply IH; [cbn in Hlen; lia|].
      intros k x y Hx Hy. exact (H (S k) x y Hx Hy).
Qed.

Lemma nth_error_both {A B : Type} (l : list A) (l' : list B) (k : nat) (a : A) :
  List.length l = List.length l' -> nth_error l k = Some a ->
  exists b, nth_error l' k = Some b.
Proof.
  intros Hlen Ha.
  assert (Hk : (k < List.length l')%nat)
    by (rewrite <- Hlen; apply nth_error_Some; congruence).
  destruct (nth_error l' k) as [b|] eqn:E; [exists b; reflexivity|].
  apply nth_error_None in E. lia.
Qed.

Lemma carried_wallet_last (previous : list DayResult) (r : DayResult) :
  carried_wallet (previous ++ [r]) = wallet_balance_end r.
Proof. unfold carried_wallet. rewrite rev_unit. reflexivity. Qed.

(** What [run_cli_simulation] returns, in terms of the loop. *)
Lemma run_cli_simulation_ok (fpow : Q -> Q -> Q) (g m rv : Q) (b : Z)
    (spends : list Q) (rs : list DayResult) :
  run_cli_simulation fpow g m rv b spends = Ok rs ->
  (5 <= g <= 50 /\ 20 <= m)
  /\ rs = st_results (cli_loop fpow (cli_rule g m) (cli_reserved rv b) 0 spends
                        (cli_initial (cli_reserved rv b) b)).
Proof.
  unfold run_cli_simulation, new_SGMRule. fold (cli_rule g m).
  destruct (post_init (cli_rule g m)) as [e|] eqn:E; [discriminate|].
  intros H. injection H as <-.
  apply post_init_none_iff in E. destruct E as [_ E].
  split; [apply E; reflexivity | reflexivity].
Qed.

(** The results of a run line up with the daily spends. *)
Lemma cli_run_shape (fpow : Q -> Q -> Q) (g m rv : Q) (b : Z) (spends : list Q)
    (rs : list DayResult) :
  run_cli_simulation fpow g m rv b spends = Ok rs ->
  List.length rs = List.length spends
  /\ map requested_spend rs = spends
  /\ map day_index rs = py_range (List.length spends).
Proof.
  intros Hrun. apply run_cli_simulation_ok in Hrun. destruct Hrun as [_ ->].
  set (reserved := cli_reserved rv b).
  destruct (cli_loop_invariant fpow (cli_rule g m) reserved
              (fun st d => d = Z.of_nat (List.length (st_results st)))
              (fun prev s r => requested_spend r = s
                               /\ day_index r = Z.of_nat (List.length prev))
              (fun _ => True)) with (spends := spends)
              (st := cli_initial reserved b) (d := 0%Z)
    as (_ & new & Hnew & Hlen & Hall).
  + intros st d s Hd _.
    destruct (cli_step_fields fpow (cli_rule g m) reserved st d s) as (Hres & _).
    split.
    * rewrite Hres, length_app. cbn [List.length]. lia.
    * unfold cli_day.
      destruct (simulate_day_fields fpow d (st_billing_day st) s (st_wallet_balance st)
                  (st_accepted_history st) (cli_rule g m) (Some default_WalletConfig)
                  reserved (st_cumulative_reserved st) (Some [])
                  (st_last_recalc_day st) (st_baseline_spend st) 0)
        as (Hday & _ & Hreq & _).
      split; [exact Hreq | rewrite Hday; exact Hd].
  + reflexivity.
  + apply Forall_forall. intros; exact I.
  + cbn [cli_initial st_results app] in Hnew. rewrite Hnew.
    split; [exact Hlen|]. split.
    * apply map_pointwise; [exact Hlen|].
      intros k r s Hr Hs. exact (proj1 (Hall k r s Hr Hs)).
    * apply map_pointwise; [unfold py_range; rewrite length_map, length_seq; exact Hlen|].
      intros k r z Hr Hz.
      destruct (nth_error_both new spends k r Hlen Hr) as [s Hs].
      destruct (Hall k r s Hr Hs) as [_ Hd].
      cbn [cli_initial st_results app] in Hd. rewrite Hd.
      assert (Hk : (k < List.length new)%nat)
        by (apply nth_error_Some; congruence).
      rewrite length_firstn, Nat.min_l by lia.
      unfold py_range in Hz. rewrite nth_error_map, nth_error_seq in Hz.
      destruct (Nat.ltb k (List.length spends)); [|discriminate].
      cbn in Hz. injection Hz as <-. reflexivity.
Qed.

(** [run_cli] refuses its arguments exactly when the growth percentage is
    outside [5, 50] or the weekly minimum is below 20, before simulating
    anything; otherwise it returns one result per daily spend, in order: the
    [k]-th result has day index [k] and the [k]-th spend as its request. *)
Theorem cli_run_outcome (fpow : Q -> Q -> Q) (g m rv : Q) (b : Z) (spends : list Q) :
  ((exists e, run_cli_simulation fpow g m rv b spends = Raise e)
   <-> (~ (5 <= g <= 50) \/ m < 20))
  /\ (forall rs, run_cli_simulation fpow g m rv b spends = Ok rs ->
        List.length rs = List.length spends
        /\ map requested_spend rs = spends
        /\ map day_index rs = py_range (List.length spends)).
Proof.
  split.
  - unfold run_cli_simulation, new_SGMRule. fold (cli_rule g m).
    pose proof (post_init_none_iff "CLI Rule" g m true false 0 true) as Hn.
    fold (cli_rule g m) in Hn.
    destruct (post_init (cli_rule g m)) as [e|] eqn:E.
    + split; [intros _ | intros _; exists e; reflexivity].
      destruct (Qlt_le_dec m 20) as [Hm|Hm]; [right; exact Hm|].
      left. intros Hg.
      assert (Some e = None) by (apply Hn; split; [lia | intros _; split; assumption]).
      discriminate.
    + destruct Hn as [Hn _]. destruct (Hn eq_refl) as [_ Hb].
      destruct (Hb eq_refl) as [Hg Hm].
      split; [intros [e He]; discriminate|].
      intros [H|H]; [exfalso; exact (H Hg) | exfalso; apply (Qlt_not_le _ _ H Hm)].
  - intros rs Hrun. exact (cli_run_shape fpow g m rv b spends rs Hrun).
Qed.

Lemma cli_run_outcome_witness :
  (exists e, run_cli_simulation linear_pow 60 20 0 1 spike_days = Raise e)
  /\ (~ (5 <= 60 <= 50) \/ 20 < 20)
  /\ (let rs := st_results (cli_loop linear_pow (cli_rule 20 20) (cli_reserved 0 1) 0
                              spike_days (cli_initial (cli_reserved 0 1) 1)) in
      run_cli_simulation linear_pow 20 20 0 1 spike_days = Ok rs
      /\ map requested_spend rs = spike_days).
Proof.
  assert (Hbad : ~ (5 <= 60 <= 50) \/ 20 < 20).
  { left. intros [_ H]. vm_compute in H. apply H. reflexivity. }
  split; [|split; [exact Hbad|]].
  - exact (proj2 (proj1 (cli_run_outcome linear_pow 60 20 0 1 spike_days)) Hbad).
  - intros rs.
    assert (Hrun : run_cli_simulation linear_pow 20 20 0 1 spike_days = Ok rs)
      by reflexivity.
    split; [exact Hrun|].
    exact (proj1 (proj2 (proj2 (cli_run_outcome linear_pow 20 20 0 1 spike_days)
                           rs Hrun))).
Defined.

(** Each day of a [run_cli] run is computed from the total accepted spend of
    all the days before it: the limit of day [k] is the growth limit of the
    list of the previous results' [accepted_spend] (with the initial
    recalculation bookkeeping, since the command line never enables weekly
    recalculation), the capacity is twice that limit, and the wallet starts
    from the previous day's end balance clipped to the capacity. *)
Theorem cli_days_fed_by_history (fpow : Q -> Q -> Q) (g m rv : Q) (b : Z)
    (spends : list Q) (rs : list DayResult) (k : nat) (r : DayResult) :
  run_cli_simulation fpow g m rv b spends = Ok rs ->
  nth_error rs k = Some r ->
  daily_spend_limit r
  = fst (fst (calculate_daily_spend_limit fpow (map accepted_spend (firstn k rs))
                (cli_rule g m) (Z.of_nat k) 0 None))
  /\ wallet_max_capacity r = daily_spend_limit r * 2
  /\ wallet_balance_start r
     = Qmin (carried_wallet (firstn k rs)) (wallet_max_capacity r).
Proof.
  intros Hrun Hr. apply run_cli_simulation_ok in Hrun. destruct Hrun as [_ ->].
  set (reserved := cli_reserved rv b) in *.
  destruct (cli_loop_invariant fpow (cli_rule g m) reserved
              (fun st d => d = Z.of_nat (List.length (st_results st))
                           /\ st_accepted_history st = map accepted_spend (st_results st)
                           /\ st_last_recalc_day st = 0%Z
                           /\ st_baseline_spend st = None
                           /\ st_wallet_balance st = carried_wallet (st_results st))
              (fun prev s r =>
                 daily_spend_limit r
                 = fst (fst (calculate_daily_spend_limit fpow (map accepted_spend prev)
                               (cli_rule g m) (Z.of_nat (List.length prev)) 0 None))
                 /\ wallet_max_capacity r = daily_spend_limit r * 2
                 /\ wallet_balance_start r
                    = Qmin (carried_wallet prev) (wallet_max_capacity r))
              (fun _ => True)) with (spends := spends)
              (st := cli_initial reserved b) (d := 0%Z)
    as (_ & new & Hnew & Hlen & Hall).
  - intros st d s (Hd & Hh & Hl & Hb & Hw) _.
    destruct (cli_step_fields fpow (cli_rule g m) reserved st d s)
      as (Hres & Hwal & Hhist & _ & _ & Hbk).
    destruct (Hbk eq_refl) as [Hl1 Hb1].
    split.
    + rewrite Hres, Hhist, Hwal, Hl1, Hb1, length_app, map_app, carried_wallet_last.
      cbn [List.length map]. repeat split; try assumption; try lia.
      rewrite Hh. reflexivity.
    + unfold cli_day.
      destruct (simulate_day_fields fpow d (st_billing_day st) s (st_wallet_balance st)
                  (st_accepted_history st) (cli_rule g m) (Some default_WalletConfig)
                  reserved (st_cumulative_reserved st) (Some [])
                  (st_last_recalc_day st) (st_baseline_spend st) 0)
        as (_ & _ & _ & _ & _ & _ & _ & Hdl & Hws & _ & Hc & _).
      rewrite Hdl, Hws, Hc, Hh, Hl, Hb, Hw, Hd. repeat split.
  - cbn [cli_initial st_results st_accepted_history st_last_recalc_day
         st_baseline_spend st_wallet_balance List.length map].
    repeat split.
  - apply Forall_forall. intros; exact I.
  - cbn [cli_initial st_results app] in Hnew, Hall. rewrite Hnew in Hr |- *.
    destruct (nth_error_both new spends k r Hlen Hr) as [s Hs].
    destruct (Hall k r s Hr Hs) as (H1 & H2 & H3).
    assert (Hk : (k < List.length new)%nat) by (apply nth_error_Some; congruence).
    rewrite length_firstn, Nat.min_l in H1 by lia.
    repeat split; assumption.
Qed.

Lemma cli_days_fed_by_history_witness :
  exists rs r,
    run_cli_simulation linear_pow 20 20 0 1 spike_days = Ok rs
    /\ nth_error rs 1 = Some r
    /\ daily_spend_limit r
       = fst (fst (calculate_daily_spend_limit linear_pow
                     (map accepted_spend (firstn 1 rs)) (cli_rule 20 20) 1 0 None)).
Proof.
  eexists. eexists.
  assert (Hrun : run_cli_simulation linear_pow 20 20 0 1 spike_days
                 = Ok (st_results (cli_loop linear_pow (cli_rule 20 20) (cli_reserved 0 1) 0
                                     spike_days (cli_initial (cli_reserved 0 1) 1))))
    by reflexivity.
  split; [exact Hrun|]. split; [reflexivity|].
  exact (proj1 (cli_days_fed_by_history linear_pow 20 20 0 1 spike_days _ 1 _
                  Hrun eq_refl)).
Defined.

Lemma day_wallet_bounds (fpow : Q -> Q -> Q) (day bday : Z)
    (req wallet : Q) (hist : list Q) (rule : SGMRule) (wc : option WalletConfig)
    (rc : option ReservedVolumesConfig) (cum : Q)
    (mas : option (list ManualAllowance)) (lrd : Z) (base : option Q) (legacy : Q) :
  0 <= wallet ->
  0 <= req ->
  0 <= min_growth_dollars rule ->
  (forall k, custom_multiplier (wallet_config_or_default wc) = Some k -> 0 <= k) ->
  Forall (fun a => 0 <= amount a) (allowances_or_empty mas) ->
  let r := fst (fst (simulate_day fpow day bday req wallet hist rule wc rc cum mas
                       lrd base legacy)) in
  0 <= wallet_balance_start r <= wallet_max_capacity r
  /\ 0 <= wallet_balance_end r <= wallet_max_capacity r.
Proof.
  intros Hw Hreq Hmin Hk Hall r.
  destruct (simulate_day_fields fpow day bday req wallet hist rule wc rc cum mas
              lrd base legacy)
    as (_ & _ & _ & _ & _ & _ & _ & _ & Hws & Hwe & Hc & _).
  fold r in Hws, Hwe, Hc.
  fold (wallet_config_or_default wc) in Hc, Hws, Hwe.
  rewrite Hwe, Hws, Hc.
  destruct (day_inputs_nonneg fpow day lrd hist rule wc mas base legacy Hmin Hk Hall)
    as (Hdl & Hcap & Hact).
  destruct (reserved_step_le_request rc bday day req cum Hreq) as [Hrs Hrs0].
  set (dl := fst (fst (calculate_daily_spend_limit fpow hist rule day lrd base))) in *.
  set (cap := calculate_max_capacity (wallet_config_or_default wc) dl) in *.
  set (act := fst (calculate_active_manual_allowances
                     (effective_allowances mas legacy day) day)) in *.
  set (rs := fst (reserved_step rc bday day req cum)) in *.
  clearbody dl cap act rs.
  split; qminmax; lra.
Qed.

Lemma reserved_step_bounds (rc : option ReservedVolumesConfig) (bday day : Z)
    (req cum rv : Q) :
  0 <= req -> 0 <= cum ->
  (0 < rv -> exists c, rc = Some c /\ monthly_volume c = rv) ->
  0 <= snd (reserved_step rc bday day req cum)
  /\ (0 < rv -> fst (reserved_step rc bday day req cum) <= rv).
Proof.
  intros Hreq Hcum Hrc. unfold reserved_step, cycle_start_usage.
  destruct rc as [c|].
  - destruct (Py.Qlt_bool 0 (monthly_volume c)) eqn:E; cbn [fst snd].
    + split.
      * destruct ((bday =? 1)%Z && (0 <? day)%Z); qminmax; lra.
      * intros Hrv. destruct (Hrc Hrv) as (c' & Ec & Emv).
        injection Ec as <-. rewrite Emv.
        destruct ((bday =? 1)%Z && (0 <? day)%Z); qminmax; lra.
    + split; [exact Hcum | intros; lra].
  - cbn [fst snd]. split; [exact Hcum | intros; lra].
Qed.

(** The per-day facts of a run, by induction over the loop. *)
Lemma cli_run_days_safe (fpow : Q -> Q -> Q) (g m rv : Q) (b : Z)
    (spends : list Q) (rs : list DayResult) :
  Forall (fun s => 0 <= s) spends ->
  run_cli_simulation fpow g m rv b spends = Ok rs ->
  Forall (cli_day_safe rv) rs.
Proof.
  intros Hsp Hrun. apply run_cli_simulation_ok in Hrun.
  destruct Hrun as [[_ Hm] ->].
  assert (Hmin : 0 <= min_growth_dollars (cli_rule g m)) by (cbn; lra).
  set (reserved := cli_reserved rv b) in *.
  assert (Hres : (0 < rv /\ exists rc, reserved = Some rc /\ monthly_volume rc = rv)
                 \/ (rv <= 0 /\ reserved = None)).
  { subst reserved. unfold cli_reserved.
    destruct (Py.Qlt_bool 0 rv) eqn:E.
    - left. apply Qlt_bool_iff in E. split; [exact E|]. eexists. split; reflexivity.
    - right. apply Qlt_bool_false_iff in E. split; [exact E | reflexivity]. }
  destruct (cli_loop_invariant fpow (cli_rule g m) reserved
              (fun st _ => 0 <= st_wallet_balance st
                           /\ 0 <= st_cumulative_reserved st)
              (fun _ _ r => cli_day_safe rv r)
              (fun s => 0 <= s)) with (spends := spends)
              (st := cli_initial reserved b) (d := 0%Z)
    as (_ & new & Hnew & Hlen & Hall).
  - intros st d s (Hw & Hcum) Hs.
    destruct (cli_step_fields fpow (cli_rule g m) reserved st d s)
      as (_ & Hwal & _ & _ & Hc1 & _).
    assert (Hk : forall k, custom_multiplier (wallet_config_or_default
                                                (Some default_WalletConfig)) = Some k
                           -> 0 <= k) by (intros k H; discriminate H).
    assert (Ha : Forall (fun a => 0 <= amount a) (allowances_or_empty (Some [])))
      by constructor.
    pose proof (day_wallet_bounds fpow d (st_billing_day st) s (st_wallet_balance st)
                  (st_accepted_history st) (cli_rule g m) (Some default_WalletConfig)
                  reserved (st_cumulative_reserved st) (Some [])
                  (st_last_recalc_day st) (st_baseline_spend st) 0 Hw Hs Hmin Hk Ha)
      as [Hb1 Hb2].
    fold (cli_day fpow (cli_rule g m) reserved st d s) in Hb1, Hb2.
    assert (Hsafe : cli_day_safe rv (cli_day fpow (cli_rule g m) reserved st d s)).
    { unfold cli_day_safe. split; [exact Hb1|]. split; [exact Hb2|].
      clear Hb1 Hb2. unfold cli_day.
      destruct (simulate_day_fields fpow d (st_billing_day st) s (st_wallet_balance st)
                  (st_accepted_history st) (cli_rule g m) (Some default_WalletConfig)
                  reserved (st_cumulative_reserved st) (Some [])
                  (st_last_recalc_day st) (st_baseline_spend st) 0)
        as (_ & _ & Hq & Hac & _ & Hr & Hsg & Hdl0 & _ & _ & _ & _ & Hcu & Hmu & _).
      rewrite Hq, Hac, Hr, Hsg, Hdl0, Hcu, Hmu.
      destruct (day_inputs_nonneg fpow d (st_last_recalc_day st) (st_accepted_history st)
                  (cli_rule g m) (Some default_WalletConfig) (Some [])
                  (st_baseline_spend st) 0 Hmin Hk Ha) as (Hdl & Hcap & _).
      destruct (reserved_step_le_request reserved (st_billing_day st) d s
                  (st_cumulative_reserved st) Hs) as [Hrs Hrs0].
      assert (Hact : fst (calculate_active_manual_allowances
                            (effective_allowances (Some []) 0 d) d) = 0) by reflexivity.
      rewrite Hact.
      assert (Hsome : 0 < rv -> exists c, reserved = Some c /\ monthly_volume c = rv).
      { intros Hrv. destruct Hres as [(_ & Hex) | (Hn & _)]; [exact Hex | lra]. }
      destruct (reserved_step_bounds reserved (st_billing_day st) d s
                  (st_cumulative_reserved st) rv Hs Hcum Hsome) as [Hcu0 Hvol].
      assert (Hnone : rv <= 0 ->
                      fst (reserved_step reserved (st_billing_day st) d s
                             (st_cumulative_reserved st)) = 0).
      { intros Hrv. destruct Hres as [(Hp & _) | (_ & En)]; [lra|].
        rewrite En. reflexivity. }
      set (dl := fst (fst (calculate_daily_spend_limit fpow (st_accepted_history st)
                             (cli_rule g m) d (st_last_recalc_day st)
                             (st_baseline_spend st)))) in *.
      set (cap := calculate_max_capacity _ dl) in *.
      set (rsv := reserved_step reserved (st_billing_day st) d s
                    (st_cumulative_reserved st)) in *.
      clearbody dl cap rsv.
      repeat split; try assumption; try reflexivity; qminmax; lra. }
    split; [|exact Hsafe].
    rewrite Hwal, Hc1. split; [apply Hsafe|].
    destruct Hsafe as (_ & _ & _ & _ & _ & _ & _ & _ & Hv & _).
    destruct reserved as [rc|]; [|exact Hv].
    destruct (advance_billing_day rc (st_billing_day st) =? 1)%Z; [lra | exact Hv].
  - cbn [cli_initial st_wallet_balance st_cumulative_reserved]. split; lra.
  - exact Hsp.
  - cbn [cli_initial st_results app] in Hnew, Hall. rewrite Hnew.
    apply Forall_forall. intros r Hin.
    destruct (In_nth_error new r Hin) as [k Hk].
    destruct (nth_error_both new spends k r Hlen Hk) as [s Hs].
    exact (Hall k r s Hk Hs).
Qed.

(** A whole [run_cli] run is safe: on non-negative daily spends, every
    day's wallet stays between zero and its capacity at the start and at
    the end of the day; the limit, the reserved spend, the SGM spend, the
    accepted spend and the cumulative reserved usage are never negative;
    the reserved spend never exceeds the request nor the monthly reserved
    volume, and the SGM spend never exceeds the non-reserved remainder; the
    accepted spend is the reserved spend plus the SGM spend; no manual
    allowance is ever used; without reserved volume the reserved spend is
    0. *)
Theorem cli_run_safe (fpow : Q -> Q -> Q) (g m rv : Q) (b : Z)
    (spends : list Q) (rs : list DayResult) :
  Forall (fun s => 0 <= s) spends ->
  run_cli_simulation fpow g m rv b spends = Ok rs ->
  forall r, In r rs ->
    0 <= wallet_balance_start r <= wallet_max_capacity r
    /\ 0 <= wallet_balance_end r <= wallet_max_capacity r
    /\ 0 <= daily_spend_limit r
    /\ 0 <= reserved_spend r <= requested_spend r
    /\ 0 <= sgm_spend r <= requested_spend r - reserved_spend r
    /\ 0 <= accepted_spend r
    /\ accepted_spend r = reserved_spend r + sgm_spend r
    /\ manual_allowances_used r == 0
    /\ 0 <= cumulative_reserved_used r
    /\ (0 < rv -> reserved_spend r <= rv)
    /\ (rv <= 0 -> reserved_spend r = 0).
Proof.
  intros Hsp Hrun r Hin.
  pose proof (cli_run_days_safe fpow g m rv b spends rs Hsp Hrun) as H.
  rewrite Forall_forall in H. exact (H r Hin).
Qed.

Lemma spike_days_nonneg : Forall (fun s => 0 <= s) spike_days.
Proof. repeat constructor; vm_compute; discriminate. Qed.

Lemma cli_run_safe_witness :
  let rs := st_results (cli_loop linear_pow (cli_rule 20 20) (cli_reserved 100 1) 0
                          spike_days (cli_initial (cli_reserved 100 1) 1)) in
  Forall (fun s => 0 <= s) spike_days
  /\ run_cli_simulation linear_pow 20 20 100 1 spike_days = Ok rs
  /\ forall r, In r rs ->
       0 <= wallet_balance_end r <= wallet_max_capacity r
       /\ (0 < 100 -> reserved_spend r <= 100).
Proof.
  intros rs.
  assert (Hrun : run_cli_simulation linear_pow 20 20 100 1 spike_days = Ok rs)
    by reflexivity.
  split; [exact spike_days_nonneg|]. split; [exact Hrun|].
  intros r Hin.
  destruct (cli_run_safe linear_pow 20 20 100 1 spike_days rs
              spike_days_nonneg Hrun r Hin)
    as (_ & Hwe & _ & _ & _ & _ & _ & _ & _ & Hcu & _).
  split; [exact Hwe | exact Hcu].
Defined.

(** Billing days of a run with reserved volume: starting from a billing day
    [b] in [1, 30], day [k] of the run has billing day
    [(b - 1 + k) mod 30 + 1]; and whenever a later day falls on billing day
    1, its cumulative reserved usage is just that day's reserved spend.
    Without reserved volume every day has billing day 1. *)
Theorem cli_billing_days (fpow : Q -> Q -> Q) (g m rv : Q) (b : Z)
    (spends : list Q) (rs : list DayResult) (k : nat) (r : DayResult) :
  run_cli_simulation fpow g m rv b spends = Ok rs ->
  nth_error rs k = Some r ->
  (0 < rv -> (1 <= b <= 30)%Z ->
   billing_day r = ((b - 1 + Z.of_nat k) mod 30 + 1)%Z
   /\ (billing_day r = 1%Z -> (0 < k)%nat ->
       cumulative_reserved_used r == reserved_spend r))
  /\ (rv <= 0 -> billing_day r = 1%Z).
Proof.
  intros Hrun Hr. apply run_cli_simulation_ok in Hrun. destruct Hrun as [_ ->].
  set (reserved := cli_reserved rv b) in *.
  set (expected := fun n : nat =>
         match reserved with
         | Some rc => Nat.iter n (advance_billing_day rc) b
         | None => 1%Z
         end).
  destruct (cli_loop_invariant fpow (cli_rule g m) reserved
              (fun st d => d = Z.of_nat (List.length (st_results st))
                           /\ st_billing_day st = expected (List.length (st_results st)))
              (fun prev s r =>
                 billing_day r = expected (List.length prev)
                 /\ (0 < rv -> billing_day r = 1%Z -> (0 < List.length prev)%nat ->
                     cumulative_reserved_used r == reserved_spend r))
              (fun _ => True)) with (spends := spends)
              (st := cli_initial reserved b) (d := 0%Z)
    as (_ & new & Hnew & Hlen & Hall).
  - intros st d s (Hd & Hb) _.
    destruct (cli_step_fields fpow (cli_rule g m) reserved st d s)
      as (Hres & _ & _ & Hbd & _).
    split.
    + rewrite Hres, Hbd, length_app, Hb. cbn [List.length].
      split; [lia|]. subst expected. cbv beta.
      destruct reserved as [rc|]; [|reflexivity].
      rewrite Nat.add_1_r. reflexivity.
    + unfold cli_day.
      destruct (simulate_day_fields fpow d (st_billing_day st) s (st_wallet_balance st)
                  (st_accepted_history st) (cli_rule g m) (Some default_WalletConfig)
                  reserved (st_cumulative_reserved st) (Some [])
                  (st_last_recalc_day st) (st_baseline_spend st) 0)
        as (_ & Hbday & _ & _ & _ & Hrsp & _ & _ & _ & _ & _ & _ & Hcu & _).
      rewrite Hbday, Hrsp, Hcu. split; [exact Hb|].
      intros Hrv H1 Hpos.
      subst reserved. unfold cli_reserved.
      apply Qlt_bool_iff in Hrv. rewrite Hrv.
      unfold reserved_step. cbn [monthly_volume]. rewrite Hrv. cbn [fst snd].
      unfold cycle_start_usage.
      replace (st_billing_day st =? 1)%Z with true
        by (symmetry; apply Z.eqb_eq; exact H1).
      replace (0 <? d)%Z with true by (symmetry; apply Z.ltb_lt; lia).
      cbn [andb]. ring.
  - cbn [cli_initial st_results st_billing_day List.length]. split; [reflexivity|].
    subst expected. cbv beta. destruct reserved; reflexivity.
  - apply Forall_forall. intros; exact I.
  - cbn [cli_initial st_results app] in Hnew, Hall. rewrite Hnew in Hr.
    destruct (nth_error_both new spends k r Hlen Hr) as [s Hs].
    destruct (Hall k r s Hr Hs) as [Hb Hreset].
    assert (Hk : (k < List.length new)%nat) by (apply nth_error_Some; congruence).
    rewrite length_firstn, Nat.min_l in Hb, Hreset by lia.
    subst expected. cbv beta in Hb.
    split.
    + intros Hrv Hrange.
      assert (Hsome : reserved = Some (mkReservedVolumesConfig rv b 30)).
      { subst reserved. unfold cli_reserved.
        apply Qlt_bool_iff in Hrv. rewrite Hrv. reflexivity. }
      rewrite Hsome in Hb.
      rewrite (advance_billing_day_iter _ b k) in Hb by (cbn; exact Hrange).
      cbn [days_in_cycle] in Hb.
      split; [exact Hb | intros H1 Hpos; exact (Hreset Hrv H1 Hpos)].
    + intros Hrv.
      assert (Hnone : reserved = None).
      { subst reserved. unfold cli_reserved.
        apply Qlt_bool_false_iff in Hrv. rewrite Hrv. reflexivity. }
      rewrite Hnone in Hb. exact Hb.
Qed.

Lemma cli_billing_days_witness :
  let rs := st_results (cli_loop linear_pow (cli_rule 20 20) (cli_reserved 100 30) 0
                          spike_days (cli_initial (cli_reserved 100 30) 30)) in
  run_cli_simulation linear_pow 20 20 100 30 spike_days = Ok rs
  /\ 0 < 100 /\ (1 <= 30 <= 30)%Z
  /\ exists r, nth_error rs 1 = Some r
               /\ billing_day r = ((30 - 1 + Z.of_nat 1) mod 30 + 1)%Z
               /\ billing_day r = 1%Z
               /\ cumulative_reserved_used r == reserved_spend r.
Proof.
  intros rs.
  assert (Hrun : run_cli_simulation linear_pow 20 20 100 30 spike_days = Ok rs)
    by reflexivity.
  assert (Hrv : 0 < 100) by reflexivity.
  assert (Hb : (1 <= 30 <= 30)%Z) by lia.
  split; [exact Hrun|]. split; [exact Hrv|]. split; [exact Hb|].
  eexists. split; [reflexivity|].
  destruct (cli_billing_days linear_pow 20 20 100 30 spike_days rs 1 _
              Hrun eq_refl) as [H _].
  destruct (H Hrv Hb) as [H1 H2].
  split; [exact H1|]. split; [exact H1|].
  apply H2; [exact H1 | lia].
Defined.

Lemma sum_map_nonneg {A : Type} (f : A -> Q) (l : list A) :
  Forall (fun a => 0 <= f a) l -> 0 <= Py.sum (map f l).
Proof.
  induction 1 as [|a t Ha _ IH]; cbn [map]; [apply Qle_refl|].
  rewrite sum_cons. lra.
Qed.

(** The summary printed by [run_cli] on non-negative daily spends: it
    counts every day of the scenario, its total requested is the sum of the
    daily spends, none of its totals nor its acceptance rate is negative,
    and the number of intervention days does not exceed the number of
    days. *)
Theorem cli_summary_consistent (fpow : Q -> Q -> Q) (g m rv : Q) (b : Z)
    (spends : list Q) (rs : list DayResult) :
  Forall (fun s => 0 <= s) spends ->
  run_cli_simulation fpow g m rv b spends = Ok rs ->
  let s := cli_summary rs in
  total_days s = List.length spends
  /\ total_requested s = Py.sum spends
  /\ 0 <= total_requested s
  /\ 0 <= total_accepted s
  /\ 0 <= total_reserved s
  /\ 0 <= total_sgm s
  /\ 0 <= acceptance_rate s
  /\ (interventions s <= total_days s)%nat.
Proof.
  intros Hsp Hrun s.
  destruct (cli_run_shape fpow g m rv b spends rs Hrun) as (Hlen & Hreq & _).
  pose proof (cli_run_days_safe fpow g m rv b spends rs Hsp Hrun) as Hsafe.
  subst s. unfold cli_summary.
  cbn [total_days total_requested total_accepted total_rejected total_reserved
       total_sgm acceptance_rate interventions].
  assert (Hacc0 : 0 <= Py.sum (map accepted_spend rs)).
  { apply sum_map_nonneg. eapply Forall_impl; [|exact Hsafe].
    intros r Hr. apply Hr. }
  assert (Hreq0 : 0 <= Py.sum (map requested_spend rs)).
  { rewrite Hreq. rewrite <- (map_id spends). apply sum_map_nonneg. exact Hsp. }
  split; [exact Hlen|]. split; [rewrite Hreq; reflexivity|].
  split; [exact Hreq0|]. split; [exact Hacc0|].
  split; [|split; [|split]].
  - apply sum_map_nonneg. eapply Forall_impl; [|exact Hsafe].
    intros r Hr. apply Hr.
  - apply sum_map_nonneg. eapply Forall_impl; [|exact Hsafe].
    intros r Hr. apply Hr.
  - set (ta := Py.sum (map accepted_spend rs)) in *.
    set (tr := Py.sum (map requested_spend rs)) in *. clearbody ta tr.
    destruct (Py.Qlt_bool 0 tr) eqn:E; [|lra].
    apply Qlt_bool_iff in E.
    apply Qmult_le_0_compat; [|lra].
    apply Qle_shift_div_l; [exact E | lra].
  - apply filter_length_le.
Qed.

Lemma cli_summary_consistent_witness :
  let rs := st_results (cli_loop linear_pow (cli_rule 20 20) (cli_reserved 100 30) 0
                          spike_days (cli_initial (cli_reserved 100 30) 30)) in
  Forall (fun s => 0 <= s) spike_days
  /\ run_cli_simulation linear_pow 20 20 100 30 spike_days = Ok rs
  /\ total_requested (cli_summary rs) = Py.sum spike_days
  /\ 0 <= acceptance_rate (cli_summary rs).
Proof.
  intros rs.
  assert (Hrun : run_cli_simulation linear_pow 20 20 100 30 spike_days = Ok rs)
    by reflexivity.
  destruct (cli_summary_consistent linear_pow 20 20 100 30 spike_days rs
              spike_days_nonneg Hrun) as (_ & H1 & _ & _ & _ & _ & H2 & _).
  split; [exact spike_days_nonneg|]. split; [exact Hrun|].
  split; [exact H1 | exact H2].
Defined.
